(** * uMath3D: screen-space triangle kernel and RGB565 packing

    A shallow embedding of

    - [lib/uc3d/systems/render/raster/helpers/rastertriangle2d.cpp]
      (class [RasterTriangle2D]: both constructors,
      [CalculateBoundsAndDenominator], [GetBarycentricCoords], [Overlaps]);
    - [lib/uc3d/core/color/rgbcolor565.hpp]
      (class [RGBColor]: [SetColor] and the private [Pack]).

    The C++ [float] is abstracted by the interface [Scalar]; the code is
    written once against that interface and run at two instances.  Over
    the rationals [Q] every operation is the mathematical one: there is
    neither rounding nor overflow nor NaN, and equality of computed
    rationals is [Qeq] (written [==]).  This is the exact arithmetic of
    the specification; results proved there are identities of values and
    facts decided by comparisons of inputs.  IEEE 754 single precision,
    through the specification of the floating-point operations of the
    Standard Library, is the arithmetic of the program; what is said of
    the verdicts of the program on all inputs is proved there. *)

From Stdlib Require Import ZArith QArith Qminmax Qabs Qfield Lia Lqa Bool List.
From Stdlib Require Import SpecFloat Qround.

Set Implicit Arguments.

(** ** The scalar interface *)

Declare Scope scalar_scope.
Delimit Scope scalar_scope with sc.

Class Scalar (F : Type) : Type := {
  f_zero  : F;
  f_one   : F;
  f_three : F;
  f_add : F -> F -> F;
  f_sub : F -> F -> F;
  f_mul : F -> F -> F;
  f_div : F -> F -> F;
  f_neg : F -> F;
  f_ltb : F -> F -> bool;
  f_leb : F -> F -> bool
}.

Infix "+" := f_add : scalar_scope.
Infix "-" := f_sub : scalar_scope.
Infix "*" := f_mul : scalar_scope.
Infix "/" := f_div : scalar_scope.
Notation "- x" := (f_neg x) : scalar_scope.
Notation "x <? y" := (f_ltb x y) : scalar_scope.
Notation "x >? y" := (f_ltb y x) : scalar_scope.
Notation "x >=? y" := (f_leb y x) : scalar_scope.

(** Exact arithmetic: the rationals. *)
Definition Qltb (a b : Q) : bool := negb (Qle_bool b a).

#[global] Instance Q_Scalar : Scalar Q := {|
  f_zero := 0%Q;
  f_one := 1%Q;
  f_three := 3%Q;
  f_add := Qplus;
  f_sub := Qminus;
  f_mul := Qmult;
  f_div := Qdiv;
  f_neg := Qopp;
  f_ltb := Qltb;
  f_leb := Qle_bool
|}.

(** ** Math collaborators

    [Mathematics], [Vector2D], [Vector3D], [Rectangle2D], [Quaternion] and
    [Transform] are classes of the repository whose sources are not part of
    the files under verification. *)

Module Mathematics.
Section Defs.
Context {F : Type} `{Scalar F}.
Local Open Scope scalar_scope.

(** Modelled from the spec: [Mathematics::FAbs], the "absolute-value
    utility" consumed from the math collaborator. *)
Definition FAbs (v : F) : F := if v <? f_zero then - v else v.

(** Modelled from the spec: [Mathematics::Min] and [Mathematics::Max] on
    three arguments, the "minimum/maximum-of-three" utility consumed from
    the math collaborator. *)
Definition Min (a b c : F) : F :=
  if a <? b then (if a <? c then a else c) else (if b <? c then b else c).

Definition Max (a b c : F) : F :=
  if a >? b then (if a >? c then a else c) else (if b >? c then b else c).
End Defs.
End Mathematics.

Module Vector2D.
Section Defs.
Context {F : Type} `{Scalar F}.
Local Open Scope scalar_scope.

(** Modelled from the spec: [Vector2D], an "ordered pair of floats" with
    public members [X] and [Y]. *)
Record t : Type := mk { X : F; Y : F }.

(** Modelled from the spec: [Vector2D::operator-], "vector subtraction". *)
Definition sub (a b : t) : t := mk (X a - X b) (Y a - Y b).

(** Modelled from the spec: the default constructor [Vector2D()], the
    zero vector. *)
Definition zero : t := mk f_zero f_zero.
End Defs.
Arguments t F : clear implicits.
End Vector2D.

Module Vector3D.
Section Defs.
Context {F : Type} `{Scalar F}.
Local Open Scope scalar_scope.

(** Modelled from the spec: [Vector3D], a triple of floats with public
    members [X], [Y] and [Z]. *)
Record t : Type := mk { X : F; Y : F; Z : F }.

(** Modelled from the spec: [Vector3D::operator-], "vector subtraction". *)
Definition sub (a b : t) : t := mk (X a - X b) (Y a - Y b) (Z a - Z b).
End Defs.
Arguments t F : clear implicits.
End Vector3D.

Module Rectangle2D.
Section Defs.
Context {F : Type} `{Scalar F}.
Local Open Scope scalar_scope.

(** Modelled from the spec: [Rectangle2D], "axis-aligned bounds", built
    from its minimum and its maximum corner. *)
Record t : Type := mk { minV : Vector2D.t F; maxV : Vector2D.t F }.

(** Modelled from the spec: [Rectangle2D::Overlaps], the "pure
    axis-aligned bounding-box intersection test": the two boxes are
    disjoint exactly when one lies entirely beyond the other on some
    axis. *)
Definition Overlaps (a b : t) : bool :=
  negb ((Vector2D.X (minV b) >? Vector2D.X (maxV a))
        || (Vector2D.X (maxV b) <? Vector2D.X (minV a))
        || (Vector2D.Y (minV b) >? Vector2D.Y (maxV a))
        || (Vector2D.Y (maxV b) <? Vector2D.Y (minV a))).
End Defs.
Arguments t F : clear implicits.
End Rectangle2D.

(** [Quaternion] and [Transform]: the constructor only composes their
    operations, so they are an interface. *)
Class CameraMath (F : Type) (Quaternion Transform : Type) : Type := {
  Multiply     : Quaternion -> Quaternion -> Quaternion;
  Conjugate    : Quaternion -> Quaternion;
  RotateVector : Quaternion -> Vector3D.t F -> Vector3D.t F;
  GetRotation  : Transform -> Quaternion;
  GetPosition  : Transform -> Vector3D.t F;
  (** [Vector3D::operator/] applied to [Transform::GetScale()]. *)
  DivideByScale : Vector3D.t F -> Transform -> Vector3D.t F
}.

(** ** RasterTriangle2D *)

Module RasterTriangle2D.
Section Defs.
Context {F : Type} `{Scalar F}.
Context {Quaternion Transform : Type} `{CameraMath F Quaternion Transform}.
(** The opaque material a triangle points to. *)
Variable Material : Type.
(** [Mathematics::EPSILON], a constant of the math collaborator. *)
Variable EPSILON : F.
Local Open Scope scalar_scope.

(** The source triangle, as the constructor reads it.  A pointer is an
    [option]: [None] is [nullptr]. *)
Record RasterTriangle3D : Type := mkRasterTriangle3D {
  src_p1 : option (Vector3D.t F);
  src_p2 : option (Vector3D.t F);
  src_p3 : option (Vector3D.t F);
  src_normal : Vector3D.t F;
  src_hasUV : bool;
  src_uv1 : option (Vector2D.t F);
  src_uv2 : option (Vector2D.t F);
  src_uv3 : option (Vector2D.t F)
}.

(** The members of [RasterTriangle2D], including the three vertices
    inherited from [Triangle2D]. *)
Record t : Type := mk {
  p1 : Vector2D.t F;
  p2 : Vector2D.t F;
  p3 : Vector2D.t F;
  t3p1 : option (Vector3D.t F);
  t3p2 : option (Vector3D.t F);
  t3p3 : option (Vector3D.t F);
  normal : option (Vector3D.t F);
  material : option Material;
  p1UV : option (Vector2D.t F);
  p2UV : option (Vector2D.t F);
  p3UV : option (Vector2D.t F);
  hasUV : bool;
  averageDepth : F;
  v0 : Vector2D.t F;
  v1 : Vector2D.t F;
  denominator : F;
  bounds : Rectangle2D.t F
}.

(** The rectangle both constructors initialise [bounds] with. *)
Definition unit_bounds : Rectangle2D.t F :=
  Rectangle2D.mk (Vector2D.mk f_zero f_zero) (Vector2D.mk f_one f_one).

(** [RasterTriangle2D::RasterTriangle2D()].  Modelled from the spec: the
    base constructor [Triangle2D()] and the members [v0], [v1], which the
    initialiser list does not mention, default-construct their
    [Vector2D]s. *)
Definition default : t :=
  mk Vector2D.zero Vector2D.zero Vector2D.zero
     None None None None
     None None None None
     false f_zero
     Vector2D.zero Vector2D.zero
     f_zero unit_bounds.

(** [RasterTriangle2D::CalculateBoundsAndDenominator()]. *)
Definition CalculateBoundsAndDenominator (this : t) : t :=
  let v0' := Vector2D.sub (p2 this) (p1 this) in
  let v1' := Vector2D.sub (p3 this) (p1 this) in
  let denominator' :=
    Vector2D.X v0' * Vector2D.Y v1' - Vector2D.X v1' * Vector2D.Y v0' in
  let denominator'' :=
    if Mathematics.FAbs denominator' >? EPSILON
    then f_one / denominator'
    else f_zero in
  let minX := Mathematics.Min (Vector2D.X (p1 this)) (Vector2D.X (p2 this)) (Vector2D.X (p3 this)) in
  let minY := Mathematics.Min (Vector2D.Y (p1 this)) (Vector2D.Y (p2 this)) (Vector2D.Y (p3 this)) in
  let maxX := Mathematics.Max (Vector2D.X (p1 this)) (Vector2D.X (p2 this)) (Vector2D.X (p3 this)) in
  let maxY := Mathematics.Max (Vector2D.Y (p1 this)) (Vector2D.Y (p2 this)) (Vector2D.Y (p3 this)) in
  mk (p1 this) (p2 this) (p3 this)
     (t3p1 this) (t3p2 this) (t3p3 this) (normal this)
     (material this) (p1UV this) (p2UV this) (p3UV this)
     (hasUV this) (averageDepth this)
     v0' v1' denominator''
     (Rectangle2D.mk (Vector2D.mk minX minY) (Vector2D.mk maxX maxY)).

(** Assignment to the three vertices, which are members of the base class
    [Triangle2D]; nothing else changes until the next recalculation. *)
Definition set_vertices (this : t) (a b c : Vector2D.t F) : t :=
  mk a b c
     (t3p1 this) (t3p2 this) (t3p3 this) (normal this)
     (material this) (p1UV this) (p2UV this) (p3UV this)
     (hasUV this) (averageDepth this)
     (v0 this) (v1 this) (denominator this) (bounds this).

(** The triangle with vertices [a], [b], [c] and its derived members
    computed: default construction, assignment of the vertices,
    recalculation. *)
Definition of_vertices (a b c : Vector2D.t F) : t :=
  CalculateBoundsAndDenominator (set_vertices default a b c).

(** The projection of one source vertex (lines 28 to 30). *)
Definition project (camTransform : Transform) (inverseCamRotation : Quaternion)
           (vertex : Vector3D.t F) : Vector3D.t F :=
  DivideByScale
    (RotateVector inverseCamRotation
       (Vector3D.sub vertex (GetPosition camTransform)))
    camTransform.

(** [RasterTriangle2D::RasterTriangle2D(camTransform, lookDirection,
    sourceTriangle, mat)].  The constructor dereferences the three vertex
    pointers of the source triangle; with a null one there is no result.
    The UV pointers are assigned under [hasUV] only.  The members [v0],
    [v1], [denominator] and [bounds] are all written by the final
    [CalculateBoundsAndDenominator()]. *)
Definition create (camTransform : Transform) (lookDirection : Quaternion)
           (sourceTriangle : RasterTriangle3D) (mat : option Material)
  : option t :=
  match src_p1 sourceTriangle, src_p2 sourceTriangle, src_p3 sourceTriangle with
  | Some a, Some b, Some c =>
      let inverseCamRotation :=
        Conjugate (Multiply (GetRotation camTransform) lookDirection) in
      let projectedP1 := project camTransform inverseCamRotation a in
      let projectedP2 := project camTransform inverseCamRotation b in
      let projectedP3 := project camTransform inverseCamRotation c in
      Some (CalculateBoundsAndDenominator
        (mk (Vector2D.mk (Vector3D.X projectedP1) (Vector3D.Y projectedP1))
            (Vector2D.mk (Vector3D.X projectedP2) (Vector3D.Y projectedP2))
            (Vector2D.mk (Vector3D.X projectedP3) (Vector3D.Y projectedP3))
            (src_p1 sourceTriangle) (src_p2 sourceTriangle) (src_p3 sourceTriangle)
            (Some (src_normal sourceTriangle))
            mat
            (if src_hasUV sourceTriangle then src_uv1 sourceTriangle else None)
            (if src_hasUV sourceTriangle then src_uv2 sourceTriangle else None)
            (if src_hasUV sourceTriangle then src_uv3 sourceTriangle else None)
            (src_hasUV sourceTriangle)
            ((Vector3D.Z projectedP1 + Vector3D.Z projectedP2 + Vector3D.Z projectedP3) / f_three)
            Vector2D.zero Vector2D.zero f_zero unit_bounds))
  | _, _, _ => None
  end.

(** The test of line 70, the degenerate early return. *)
Definition degenerate_guard (this : t) : bool :=
  Mathematics.FAbs (denominator this) <? EPSILON.

(** [RasterTriangle2D::GetBarycentricCoords(x, y, u, v, w)].  The three
    reference parameters are passed in with the values the caller's
    variables hold and passed out with the values they hold afterwards. *)
Definition GetBarycentricCoords (this : t) (x y : F) (uvw : F * F * F)
  : bool * (F * F * F) :=
  if degenerate_guard this then (false, uvw)
  else
    let v2 := Vector2D.sub (Vector2D.mk x y) (p1 this) in
    let v := (Vector2D.X v2 * Vector2D.Y (v1 this)
              - Vector2D.X (v1 this) * Vector2D.Y v2) * denominator this in
    let w := (Vector2D.X (v0 this) * Vector2D.Y v2
              - Vector2D.X v2 * Vector2D.Y (v0 this)) * denominator this in
    let u := f_one - v - w in
    ((v >=? f_zero) && (w >=? f_zero) && (u >=? f_zero), (u, v, w)).

(** [RasterTriangle2D::Overlaps(otherBounds)]. *)
Definition Overlaps (this : t) (otherBounds : Rectangle2D.t F) : bool :=
  Rectangle2D.Overlaps (bounds this) otherBounds.

(** [RasterTriangle2D::GetMaterial()]. *)
Definition GetMaterial (this : t) : option Material := material this.
End Defs.
End RasterTriangle2D.

(** ** Notions the properties are stated with *)

Module Geometry.
Section Defs.
Local Open Scope Q_scope.
Variable Material : Type.
Local Abbreviation T := (@RasterTriangle2D.t Q Material).

(** The cross product of the two edge vectors leaving [a]: twice the
    signed area of the triangle [a], [b], [c]. *)
Definition cross (a b c : Vector2D.t Q) : Q :=
  (Vector2D.X b - Vector2D.X a) * (Vector2D.Y c - Vector2D.Y a)
  - (Vector2D.X c - Vector2D.X a) * (Vector2D.Y b - Vector2D.Y a).

(** Three points are collinear when one line [l*x + m*y = n] holds them. *)
Definition on_line (l m n : Q) (a : Vector2D.t Q) : Prop :=
  l * Vector2D.X a + m * Vector2D.Y a == n.

Definition collinear (a b c : Vector2D.t Q) : Prop :=
  exists l m n : Q,
    ~ (l == 0 /\ m == 0) /\ on_line l m n a /\ on_line l m n b /\ on_line l m n c.

(** The construction-time test of line 53, on the cross product the
    method has just computed. *)
Definition area_test (EPSILON : Q) (this : T) : bool :=
  Qltb EPSILON
       (Mathematics.FAbs
          (cross (RasterTriangle2D.p1 this) (RasterTriangle2D.p2 this)
                 (RasterTriangle2D.p3 this))).

(** A triangle is flagged degenerate when its [denominator] member holds
    the sentinel. *)
Definition flagged_degenerate (this : T) : Prop :=
  RasterTriangle2D.denominator this == 0.

(** The componentwise minimum and maximum of the three vertices. *)
Definition min3 (a b c : Q) : Q := Qmin (Qmin a b) c.
Definition max3 (a b c : Q) : Q := Qmax (Qmax a b) c.

Definition tight_for (r : Rectangle2D.t Q) (a b c : Vector2D.t Q) : Prop :=
  Vector2D.X (Rectangle2D.minV r) == min3 (Vector2D.X a) (Vector2D.X b) (Vector2D.X c)
  /\ Vector2D.Y (Rectangle2D.minV r) == min3 (Vector2D.Y a) (Vector2D.Y b) (Vector2D.Y c)
  /\ Vector2D.X (Rectangle2D.maxV r) == max3 (Vector2D.X a) (Vector2D.X b) (Vector2D.X c)
  /\ Vector2D.Y (Rectangle2D.maxV r) == max3 (Vector2D.Y a) (Vector2D.Y b) (Vector2D.Y c).

Definition tight_bounds (this : T) : Prop :=
  tight_for (RasterTriangle2D.bounds this) (RasterTriangle2D.p1 this)
            (RasterTriangle2D.p2 this) (RasterTriangle2D.p3 this).

(** The six orders three vertices can be given in. *)
Definition orders (a b c : Vector2D.t Q)
  : list (Vector2D.t Q * Vector2D.t Q * Vector2D.t Q) :=
  (a, b, c) :: (a, c, b) :: (b, a, c) :: (b, c, a) :: (c, a, b) :: (c, b, a) :: nil.

(** A rectangle whose minimum corner does not exceed its maximum corner. *)
Definition ordered (r : Rectangle2D.t Q) : Prop :=
  Vector2D.X (Rectangle2D.minV r) <= Vector2D.X (Rectangle2D.maxV r)
  /\ Vector2D.Y (Rectangle2D.minV r) <= Vector2D.Y (Rectangle2D.maxV r).

(** [outer] strictly contains [inner]. *)
Definition strictly_contains (outer inner : Rectangle2D.t Q) : Prop :=
  Vector2D.X (Rectangle2D.minV outer) < Vector2D.X (Rectangle2D.minV inner)
  /\ Vector2D.Y (Rectangle2D.minV outer) < Vector2D.Y (Rectangle2D.minV inner)
  /\ Vector2D.X (Rectangle2D.maxV inner) < Vector2D.X (Rectangle2D.maxV outer)
  /\ Vector2D.Y (Rectangle2D.maxV inner) < Vector2D.Y (Rectangle2D.maxV outer).

(** Two boxes intersect when their extents meet on both axes. *)
Definition boxes_intersect (a b : Rectangle2D.t Q) : Prop :=
  Vector2D.X (Rectangle2D.minV b) <= Vector2D.X (Rectangle2D.maxV a)
  /\ Vector2D.X (Rectangle2D.minV a) <= Vector2D.X (Rectangle2D.maxV b)
  /\ Vector2D.Y (Rectangle2D.minV b) <= Vector2D.Y (Rectangle2D.maxV a)
  /\ Vector2D.Y (Rectangle2D.minV a) <= Vector2D.Y (Rectangle2D.maxV b).

(** The barycentric coordinates [(u, v, w)] of the point [(x, y)] as the
    specification writes them: with [q = (x,y) - p1],
    [v = (q.x*v1.y - v1.x*q.y) * inverseDenominator],
    [w = (v0.x*q.y - q.x*v0.y) * inverseDenominator], [u = 1 - v - w]. *)
Definition barycentric (this : T) (x y : Q) : Q * Q * Q :=
  let qx := x - Vector2D.X (RasterTriangle2D.p1 this) in
  let qy := y - Vector2D.Y (RasterTriangle2D.p1 this) in
  let v := (qx * Vector2D.Y (RasterTriangle2D.v1 this)
            - Vector2D.X (RasterTriangle2D.v1 this) * qy)
           * RasterTriangle2D.denominator this in
  let w := (Vector2D.X (RasterTriangle2D.v0 this) * qy
            - qx * Vector2D.Y (RasterTriangle2D.v0 this))
           * RasterTriangle2D.denominator this in
  (1 - v - w, v, w).

(** [inside = (u >= 0) and (v >= 0) and (w >= 0)]. *)
Definition inside (uvw : Q * Q * Q) : bool :=
  let '(u, v, w) := uvw in Qle_bool 0 u && Qle_bool 0 v && Qle_bool 0 w.

(** Replacement of every pointer member. *)
Definition set_pointers (this : T)
           (a b c n : option (Vector3D.t Q)) (m : option Material)
           (u1 u2 u3 : option (Vector2D.t Q)) : T :=
  RasterTriangle2D.mk
     (RasterTriangle2D.p1 this) (RasterTriangle2D.p2 this) (RasterTriangle2D.p3 this)
     a b c n m u1 u2 u3
     (RasterTriangle2D.hasUV this) (RasterTriangle2D.averageDepth this)
     (RasterTriangle2D.v0 this) (RasterTriangle2D.v1 this)
     (RasterTriangle2D.denominator this) (RasterTriangle2D.bounds this).

(** The values a [RasterTriangle2D] object can hold. *)
Inductive Reachable {Quaternion Transform : Type}
          `{CameraMath Q Quaternion Transform} (EPSILON : Q) : T -> Prop :=
| Reachable_default :
    Reachable EPSILON (RasterTriangle2D.default Material)
| Reachable_create camTransform lookDirection sourceTriangle mat this :
    RasterTriangle2D.create EPSILON camTransform lookDirection sourceTriangle mat
      = Some this ->
    Reachable EPSILON this
| Reachable_set_vertices this a b c :
    Reachable EPSILON this -> Reachable EPSILON (RasterTriangle2D.set_vertices this a b c)
| Reachable_recalculate this :
    Reachable EPSILON this ->
    Reachable EPSILON (RasterTriangle2D.CalculateBoundsAndDenominator EPSILON this).
End Defs.
End Geometry.

(** ** A camera to run the constructor with *)

Module Camera.
Local Open Scope Q_scope.

(** Modelled from the spec: [Quaternion], with the "quaternion
    composition/conjugation/rotation-of-vector" consumed from the math
    collaborator, as the Hamilton algebra. *)
Record Quaternion : Type := mkQuaternion { W : Q; X : Q; Y : Q; Z : Q }.

Definition identity : Quaternion := mkQuaternion 1 0 0 0.

Definition Multiply (a b : Quaternion) : Quaternion :=
  mkQuaternion
    (W a * W b - X a * X b - Y a * Y b - Z a * Z b)
    (W a * X b + X a * W b + Y a * Z b - Z a * Y b)
    (W a * Y b - X a * Z b + Y a * W b + Z a * X b)
    (W a * Z b + X a * Y b - Y a * X b + Z a * W b).

Definition Conjugate (a : Quaternion) : Quaternion :=
  mkQuaternion (W a) (- X a) (- Y a) (- Z a).

Definition RotateVector (q : Quaternion) (v : Vector3D.t Q) : Vector3D.t Q :=
  let r := Multiply (Multiply q (mkQuaternion 0 (Vector3D.X v) (Vector3D.Y v) (Vector3D.Z v)))
                    (Conjugate q) in
  Vector3D.mk (X r) (Y r) (Z r).

(** Modelled from the spec: [Transform], "a camera transform (position,
    rotation, non-zero scale)"; the division by the scale is componentwise. *)
Record Transform : Type := mkTransform {
  rotation : Quaternion;
  position : Vector3D.t Q;
  scale : Vector3D.t Q
}.

Definition Divide (v s : Vector3D.t Q) : Vector3D.t Q :=
  Vector3D.mk (Vector3D.X v / Vector3D.X s) (Vector3D.Y v / Vector3D.Y s)
              (Vector3D.Z v / Vector3D.Z s).

#[global] Instance Q_CameraMath : CameraMath Q Quaternion Transform :=
  Build_CameraMath Multiply Conjugate RotateVector rotation position
                   (fun v camTransform => Divide v (scale camTransform)).
End Camera.

(** ** Values the examples are run with *)

Module Examples.
Local Open Scope Q_scope.

(** A threshold: one thousandth. *)
Definition EPSILON : Q := 1 # 1000.

(** The right triangle with legs of length [100]: default construction,
    assignment of the vertices, recalculation. *)
Definition large : @RasterTriangle2D.t Q unit :=
  RasterTriangle2D.of_vertices unit EPSILON
    (Vector2D.mk 0 0) (Vector2D.mk 100 0) (Vector2D.mk 0 100).

(** The three collinear points of the specification. *)
Definition diagonal : @RasterTriangle2D.t Q unit :=
  RasterTriangle2D.set_vertices (RasterTriangle2D.default unit)
    (Vector2D.mk 0 0) (Vector2D.mk 1 1) (Vector2D.mk 2 2).

(** The interpolation example of the specification. *)
Definition small : @RasterTriangle2D.t Q unit :=
  RasterTriangle2D.of_vertices unit EPSILON
    (Vector2D.mk 0 0) (Vector2D.mk 4 0) (Vector2D.mk 0 4).

(** The projection example of the specification: the camera at the
    origin, no rotation, scale one. *)
Definition camera : Camera.Transform :=
  Camera.mkTransform Camera.identity (Vector3D.mk 0 0 0) (Vector3D.mk 1 1 1).

Definition source : @RasterTriangle2D.RasterTriangle3D Q :=
  RasterTriangle2D.mkRasterTriangle3D
    (Some (Vector3D.mk 0 0 5)) (Some (Vector3D.mk 1 0 5)) (Some (Vector3D.mk 0 1 5))
    (Vector3D.mk 0 0 (-1)) false None None None.

(** A source triangle with a null vertex pointer. *)
Definition source_null : @RasterTriangle2D.RasterTriangle3D Q :=
  RasterTriangle2D.mkRasterTriangle3D
    None (Some (Vector3D.mk 1 0 5)) (Some (Vector3D.mk 0 1 5))
    (Vector3D.mk 0 0 (-1)) false None None None.

(** A query rectangle around the unit square. *)
Definition around : Rectangle2D.t Q :=
  Rectangle2D.mk (Vector2D.mk (-1) (-1)) (Vector2D.mk 2 2).
End Examples.

(** ** RGBColor (RGB565) *)

(** The conversions between [uint8_t] and [float].  The conversion of a
    [float] to [uint8_t] truncates toward zero and is undefined when the
    truncated value is not a [uint8_t]: then there is no result. *)
Class FloatConv (F : Type) : Type := {
  f_of_uint8 : Z -> F;
  f_to_uint8 : F -> option Z
}.

(** Truncation toward zero of a rational. *)
Definition Qtrunc (q : Q) : Z := Z.quot (Qnum q) (Zpos (Qden q)).

#[global] Instance Q_FloatConv : FloatConv Q := {|
  f_of_uint8 := inject_Z;
  f_to_uint8 := fun q =>
    let z := Qtrunc q in
    if ((0 <=? z)%Z && (z <=? 255)%Z)%bool then Some z else None
|}.

Module RGBColor.
Local Open Scope Z_scope.

(** The conversions to [uint8_t] and [uint16_t]: reduction modulo [2^8]
    and [2^16]. *)
Definition uint8_t (z : Z) : Z := z mod 2 ^ 8.
Definition uint16_t (z : Z) : Z := z mod 2 ^ 16.

(** The members: the packed [color] and the three channels. *)
Record t : Type := mk { color : Z; r : Z; g : Z; b : Z }.

(** [RGBColor::Pack()].  The shifts and the [|] are computed on [int]
    after the integer promotions; the assignment converts to [uint16_t]. *)
Definition Pack (this : t) : t :=
  mk (uint16_t
        (Z.lor (Z.lor (Z.shiftl (uint16_t (Z.shiftr (r this) 3)) 11)
                      (Z.shiftl (uint16_t (Z.shiftr (g this) 2)) 5))
               (uint16_t (Z.shiftr (b this) 3))))
     (r this) (g this) (b this).

(** [RGBColor::SetColor(rIn, gIn, bIn)]; the parameters are [uint8_t]. *)
Definition SetColor (this : t) (rIn gIn bIn : Z) : t :=
  Pack (mk (color this) (uint8_t rIn) (uint8_t gIn) (uint8_t bIn)).

(** [RGBColor()]: every member has the initialiser [0]. *)
Definition default : t := mk 0 0 0 0.

(** [RGBColor(r, g, b)]. *)
Definition create (r g b : Z) : t := SetColor default r g b.

(** The packed value the channels [r], [g], [b] stand for, without any
    reduction. *)
Definition rgb565 (r g b : Z) : Z :=
  Z.lor (Z.lor (Z.shiftl (Z.shiftr r 3) 11) (Z.shiftl (Z.shiftr g 2) 5))
        (Z.shiftr b 3).

(** A value of type [uint8_t]. *)
Definition is_uint8 (z : Z) : Prop := 0 <= z < 2 ^ 8.

(** The lambda [scale] of [Scale]: the product is computed on [int], the
    division is the integer division of C++, the result is converted to
    [uint8_t]. *)
Definition scale (maxBrightness c : Z) : Z :=
  uint8_t (Z.quot (uint16_t c * maxBrightness) 255).

(** [RGBColor::Scale(maxBrightness)]; the parameter is [uint8_t]. *)
Definition Scale (this : t) (maxBrightness : Z) : t :=
  let m := uint8_t maxBrightness in
  create (scale m (r this)) (scale m (g this)) (scale m (b this)).

Section WithConstrain.
(** [Mathematics::Constrain<uint8_t>], a function of the math
    collaborator: with the template argument given, its three parameters
    and its result have type [uint8_t]. *)
Variable Constrain : Z -> Z -> Z -> Z.

(** The lambda [add] of [Add]: the sum is computed on [int] and converted
    to [uint8_t] when it is passed to [Constrain<uint8_t>]. *)
Definition add (value c : Z) : Z :=
  uint8_t (Constrain (uint8_t (c + value)) (uint8_t 0) (uint8_t 255)).

(** [RGBColor::Add(value)]; the parameter is [uint8_t]. *)
Definition Add (this : t) (value : Z) : t :=
  let v := uint8_t value in
  create (add v (r this)) (add v (g this)) (add v (b this)).
End WithConstrain.

(** A clamp to run [Add] with. *)
Definition clamp (value minimum maximum : Z) : Z :=
  if value >? maximum then maximum
  else if value <? minimum then minimum
  else value.

Section Interpolation.
Context {F : Type} `{Scalar F} `{FloatConv F}.
Local Open Scope scalar_scope.

(** The lambda [lerp] of [InterpolateColors]. *)
Definition lerp (ratio : F) (x y : Z) : option Z :=
  f_to_uint8 (f_of_uint8 x * (f_one - ratio) + f_of_uint8 y * ratio).

(** [RGBColor::InterpolateColors(a, b, ratio)]. *)
Definition InterpolateColors (a b : t) (ratio : F) : option t :=
  match lerp ratio (r a) (r b), lerp ratio (g a) (g b), lerp ratio (RGBColor.b a) (RGBColor.b b) with
  | Some r', Some g', Some b' => Some (create r' g' b')
  | _, _, _ => None
  end.
End Interpolation.

(** The colours the class builds: every constructor and every method that
    returns a colour goes through [SetColor]. *)
Inductive Built : t -> Prop :=
| Built_default : Built default
| Built_create r g b : Built (create r g b)
| Built_SetColor this r g b : Built this -> Built (SetColor this r g b).

(** A colour whose packed member agrees with its channels. *)
Definition consistent (this : t) : Prop :=
  is_uint8 (r this) /\ is_uint8 (g this) /\ is_uint8 (b this)
  /\ color this = rgb565 (r this) (g this) (b this).
End RGBColor.


(** ** IEEE 754 single precision

    The second instance of [Scalar]: the [float] of the C++ code, with its
    rounding, through the specification of the floating-point operations
    of the Standard Library at precision 24 and maximal exponent 128.  It
    runs the same embedded code on concrete inputs. *)

Module Binary32.
Local Open Scope Z_scope.

Definition prec : Z := 24.
Definition emax : Z := 128.

(** An integer constant of the source, rounded to a [float]. *)
Definition of_Z (z : Z) : spec_float := binary_normalize prec emax z 0 false.

#[global] Instance binary32_Scalar : Scalar spec_float := {|
  f_zero := S754_zero false;
  f_one := of_Z 1;
  f_three := of_Z 3;
  f_add := SFadd prec emax;
  f_sub := SFsub prec emax;
  f_mul := SFmul prec emax;
  f_div := SFdiv prec emax;
  f_neg := SFopp;
  f_ltb := SFltb;
  f_leb := SFleb
|}.

(** The literal [0.001f]: the quotient of 1 by 1000 rounded to nearest,
    which is [8589935 * 2^-33]. *)
Definition EPSILON : spec_float := SFdiv prec emax (of_Z 1) (of_Z 1000).

Definition point (x y : Z) : Vector2D.t spec_float := Vector2D.mk (of_Z x) (of_Z y).

(** The right triangle with legs of length [100]. *)
Definition large : @RasterTriangle2D.t spec_float unit :=
  RasterTriangle2D.of_vertices unit EPSILON (point 0 0) (point 100 0) (point 0 100).

(** The interpolation example of the specification. *)
Definition small : @RasterTriangle2D.t spec_float unit :=
  RasterTriangle2D.of_vertices unit EPSILON (point 0 0) (point 4 0) (point 0 4).

(** The conversion [float] to [uint8_t]: the value [m * 2^e] truncated
    toward zero; no result for an infinity, a NaN or a truncated value that
    is not a [uint8_t]. *)
Definition to_uint8 (f : spec_float) : option Z :=
  match f with
  | S754_zero _ => Some 0
  | S754_finite s m e =>
      let t := if 0 <=? e then Zpos m * 2 ^ e else Z.shiftr (Zpos m) (- e) in
      let z := if s then - t else t in
      if (0 <=? z) && (z <=? 255) then Some z else None
  | _ => None
  end.

#[global] Instance binary32_FloatConv : FloatConv spec_float := {|
  f_of_uint8 := of_Z;
  f_to_uint8 := to_uint8
|}.

(** The [uint8_t] values, in order. *)
Definition uint8_values : list Z := List.map Z.of_nat (List.seq 0 256).

(** Both endpoints of [lerp] at the channel values [x] and [y]. *)
Definition lerp_endpoints_ok (x y : Z) : bool :=
  match RGBColor.lerp (S754_zero false) x y, RGBColor.lerp (of_Z 1) x y with
  | Some x', Some y' => (x' =? x) && (y' =? y)
  | _, _ => false
  end.
End Binary32.

(** ** Ellipse2D *)

(** [sinf] and [cosf] of the C library. *)
Class Trig (F : Type) : Type := {
  sinf : F -> F;
  cosf : F -> F
}.

Module Ellipse2D.
Section Defs.
Context {F : Type} `{Scalar F} `{Trig F}.
(** [Mathematics::MPID180], a constant of the math collaborator. *)
Variable MPID180 : F.
Local Open Scope scalar_scope.

(** The members [IsInShape] reads; they are declared in the base class
    [Shape]. *)
Record t : Type := mk {
  center : Vector2D.t F;
  size : Vector2D.t F;
  rotation : F
}.

(** [Ellipse2D::IsInShape(point)]. *)
Definition IsInShape (this : t) (point : Vector2D.t F) : bool :=
  let x := Vector2D.X point - Vector2D.X (center this) in
  let y := Vector2D.Y point - Vector2D.Y (center this) in
  let sinR := sinf (rotation this * MPID180) in
  let cosR := cosf (rotation this * MPID180) in
  let xP := x * cosR - y * sinR in
  let yP := y * cosR + x * sinR in
  let xQuot := xP * xP / (Vector2D.X (size this) * Vector2D.X (size this)) in
  let yQuot := yP * yP / (Vector2D.Y (size this) * Vector2D.Y (size this)) in
  xQuot + yQuot <? f_one.
End Defs.
Arguments t F : clear implicits.

(** The point opposite to [point] with respect to the centre. *)
Definition opposite (this : t Q) (point : Vector2D.t Q) : Vector2D.t Q :=
  Vector2D.mk (Vector2D.X (center this) + (Vector2D.X (center this) - Vector2D.X point))%Q
              (Vector2D.Y (center this) + (Vector2D.Y (center this) - Vector2D.Y point))%Q.

End Ellipse2D.

(** ** More values to run the code with *)

Module Samples.
Local Open Scope Q_scope.

(** The vertices [(0,0)], [(4,0)], [(0,4)] assigned to a default-constructed
    triangle, before the recalculation. *)
Definition small_vertices : @RasterTriangle2D.t Q unit :=
  RasterTriangle2D.set_vertices (RasterTriangle2D.default unit)
    (Vector2D.mk 0 0) (Vector2D.mk 4 0) (Vector2D.mk 0 4).

(** Two colours. *)
Definition orange : RGBColor.t := RGBColor.create 255 128 7.
Definition teal : RGBColor.t := RGBColor.create 0 128 128.
End Samples.

(** ** The construction test, as computed *)

Module Construction.
Section Defs.
Context {F : Type} `{Scalar F}.
Variable Material : Type.
Local Open Scope scalar_scope.

(** The cross product of the edge vectors as line 51 computes it, with the
    roundings of [F]. *)
Definition cross (this : @RasterTriangle2D.t F Material) : F :=
  let v0 := Vector2D.sub (RasterTriangle2D.p2 this) (RasterTriangle2D.p1 this) in
  let v1 := Vector2D.sub (RasterTriangle2D.p3 this) (RasterTriangle2D.p1 this) in
  Vector2D.X v0 * Vector2D.Y v1 - Vector2D.X v1 * Vector2D.Y v0.

(** The test of line 53 on that cross product. *)
Definition passes (EPSILON : F) (this : @RasterTriangle2D.t F Material) : bool :=
  Mathematics.FAbs (cross this) >? EPSILON.
End Defs.
End Construction.

(** ** More single precision values *)

Module Float32.
Local Open Scope Z_scope.

(** The [float] nearest to [m * 2^e]. *)
Definition make (m e : Z) : spec_float :=
  binary_normalize Binary32.prec Binary32.emax m e false.

(** The rational a [float] stands for; an infinity and a NaN stand for
    none and are sent to [0]. *)
Definition to_Q (f : spec_float) : Q :=
  match f with
  | S754_finite s m e =>
      ((if s then - inject_Z (Zpos m) else inject_Z (Zpos m)) * 2 ^ e)%Q
  | _ => 0%Q
  end.

Definition value (v : Vector2D.t spec_float) : Vector2D.t Q :=
  Vector2D.mk (to_Q (Vector2D.X v)) (to_Q (Vector2D.Y v)).

(** A zero or a finite number: neither an infinity nor a NaN. *)
Definition is_finite (f : spec_float) : bool :=
  match f with
  | S754_zero _ | S754_finite _ _ _ => true
  | _ => false
  end.

(** A finite number other than zero. *)
Definition is_finite_nonzero (f : spec_float) : bool :=
  match f with
  | S754_finite _ _ _ => true
  | _ => false
  end.

(** A vertex with a NaN coordinate. *)
Definition has_nan (v : Vector2D.t spec_float) : Prop :=
  Vector2D.X v = S754_nan \/ Vector2D.Y v = S754_nan.

(** Three vertices on one line: [(-2^-12, 0)], [(12288 + 2^-9, 6)],
    [(4096 + 2^-11, 2)]. *)
Definition sliver_p1 : Vector2D.t spec_float :=
  Vector2D.mk (make (-1) (-12)) (S754_zero false).
Definition sliver_p2 : Vector2D.t spec_float :=
  Vector2D.mk (make 6291457 (-9)) (Binary32.of_Z 6).
Definition sliver_p3 : Vector2D.t spec_float :=
  Vector2D.mk (make 8388609 (-11)) (Binary32.of_Z 2).

Definition sliver : @RasterTriangle2D.t spec_float unit :=
  RasterTriangle2D.of_vertices unit Binary32.EPSILON sliver_p1 sliver_p2 sliver_p3.

(** The three collinear points of the specification, assigned to a
    default-constructed triangle. *)
Definition diagonal : @RasterTriangle2D.t spec_float unit :=
  RasterTriangle2D.set_vertices (RasterTriangle2D.default unit)
    (Binary32.point 0 0) (Binary32.point 1 1) (Binary32.point 2 2).

(** [sinf] and [cosf] at the argument zero, where the C library returns
    the zero and one; no other argument is modelled. *)
Definition at_zero : Trig spec_float := {|
  sinf := fun a => match a with S754_zero s => S754_zero s | _ => S754_nan end;
  cosf := fun a => match a with S754_zero _ => Binary32.of_Z 1 | _ => S754_nan end
|}.

(** An unrotated ellipse with sizes [2] and [1] around [(1, 1)]. *)
Definition ellipse : Ellipse2D.t spec_float :=
  Ellipse2D.mk (Binary32.point 1 1) (Binary32.point 2 1) (S754_zero false).

(** The [float] nearest to [0.01745329251], the degrees-to-radians factor
    [Mathematics::MPID180]: [9370165 * 2^-29]. *)
Definition MPID180 : spec_float := make 9370165 (-29).

(** A triangle whose first vertex has a NaN abscissa. *)
Definition nan_triangle : @RasterTriangle2D.t spec_float unit :=
  RasterTriangle2D.set_vertices (RasterTriangle2D.default unit)
    (Vector2D.mk S754_nan (S754_zero false)) (Binary32.point 1 0) (Binary32.point 0 1).
End Float32.
(** ** Exact arithmetic: the comparisons and utilities over [Q] *)

Local Open Scope Q_scope.

Lemma Qltb_lt (a b : Q) : Qltb a b = true <-> a < b.
Proof.
  unfold Qltb. rewrite negb_true_iff, <- not_true_iff_false, Qle_bool_iff.
  split; [apply Qnot_le_lt | apply Qlt_not_le].
Qed.

Lemma Qltb_ge (a b : Q) : Qltb a b = false <-> b <= a.
Proof.
  unfold Qltb. rewrite negb_false_iff. apply Qle_bool_iff.
Qed.

(** Case analysis on one comparison of the code, leaving its meaning as a
    hypothesis. *)
Ltac case_ltb a b :=
  let E := fresh "E" in
  destruct (Qltb a b) eqn:E;
  [ apply Qltb_lt in E | apply Qltb_ge in E ].

Lemma FAbs_Qabs (q : Q) : Mathematics.FAbs q == Qabs q.
Proof.
  unfold Mathematics.FAbs; cbn [f_ltb f_neg f_zero Q_Scalar].
  case_ltb q 0.
  - symmetry. apply Qabs_neg. lra.
  - symmetry. apply Qabs_pos. exact E.
Qed.

Lemma FAbs_nonneg (q : Q) : 0 <= Mathematics.FAbs q.
Proof. rewrite FAbs_Qabs. apply Qabs_nonneg. Qed.

Lemma Min_Qmin (a b c : Q) : Mathematics.Min a b c == Qmin (Qmin a b) c.
Proof.
  unfold Mathematics.Min; cbn [f_ltb Q_Scalar].
  case_ltb a b; [case_ltb a c | case_ltb b c];
    destruct (Q.min_spec a b) as [[? Hab] | [? Hab]];
    destruct (Q.min_spec (Qmin a b) c) as [[? Hc] | [? Hc]];
    rewrite Hc; rewrite ?Hab in *; lra.
Qed.

Lemma Max_Qmax (a b c : Q) : Mathematics.Max a b c == Qmax (Qmax a b) c.
Proof.
  unfold Mathematics.Max; cbn [f_ltb Q_Scalar].
  case_ltb b a; [case_ltb c a | case_ltb c b];
    destruct (Q.max_spec a b) as [[? Hab] | [? Hab]];
    destruct (Q.max_spec (Qmax a b) c) as [[? Hc] | [? Hc]];
    rewrite Hc; rewrite ?Hab in *; lra.
Qed.

Lemma Min_le_Max (a b c : Q) : Mathematics.Min a b c <= Mathematics.Max a b c.
Proof.
  unfold Mathematics.Min, Mathematics.Max; cbn [f_ltb Q_Scalar].
  case_ltb a b; case_ltb b a; try lra;
    try case_ltb a c; try case_ltb c a; try case_ltb b c; try case_ltb c b; lra.
Qed.

Lemma Qdiv_lt_iff (a b c : Q) : 0 < b -> (a / b < c <-> a < c * b).
Proof.
  intros Hb. rewrite <- (Qmult_lt_r (a / b) c b Hb).
  assert (E : a / b * b == a) by (field; lra).
  rewrite E. reflexivity.
Qed.

Lemma Qinv_lt_swap (a e : Q) : 0 < a -> 0 < e -> (1 / a < e <-> 1 / e < a).
Proof.
  intros Ha He. rewrite !Qdiv_lt_iff by assumption.
  split; intros; lra.
Qed.

(** Linear arithmetic with [Qmin] and [Qmax]: one case analysis for each
    occurrence, then [lra]. *)
Ltac q_minmax :=
  repeat match goal with
  | |- context [Qmin ?a ?b] =>
      lazymatch goal with
      | _ : Qmin a b == _ |- _ => fail
      | _ => destruct (Q.min_spec a b) as [[? ?] | [? ?]]
      end
  | |- context [Qmax ?a ?b] =>
      lazymatch goal with
      | _ : Qmax a b == _ |- _ => fail
      | _ => destruct (Q.max_spec a b) as [[? ?] | [? ?]]
      end
  end;
  lra.

(** ** The derived members after a recalculation *)

Section Recalculation.
Variable Material : Type.
Variable EPSILON : Q.
Local Abbreviation T := (@RasterTriangle2D.t Q Material).
Local Abbreviation Calc := (RasterTriangle2D.CalculateBoundsAndDenominator EPSILON).

Lemma Calc_vertices (this : T) :
  RasterTriangle2D.p1 (Calc this) = RasterTriangle2D.p1 this
  /\ RasterTriangle2D.p2 (Calc this) = RasterTriangle2D.p2 this
  /\ RasterTriangle2D.p3 (Calc this) = RasterTriangle2D.p3 this.
Proof. repeat split. Qed.

Lemma Calc_edges (this : T) :
  RasterTriangle2D.v0 (Calc this)
    = Vector2D.sub (RasterTriangle2D.p2 this) (RasterTriangle2D.p1 this)
  /\ RasterTriangle2D.v1 (Calc this)
    = Vector2D.sub (RasterTriangle2D.p3 this) (RasterTriangle2D.p1 this).
Proof. split; reflexivity. Qed.

Lemma area_test_spec (this : T) :
  Geometry.area_test EPSILON this = true
  <-> EPSILON < Qabs (Geometry.cross (RasterTriangle2D.p1 this)
                        (RasterTriangle2D.p2 this) (RasterTriangle2D.p3 this)).
Proof. unfold Geometry.area_test. rewrite Qltb_lt, FAbs_Qabs. reflexivity. Qed.

Lemma Calc_denominator (this : T) :
  RasterTriangle2D.denominator (Calc this)
  = if Geometry.area_test EPSILON this
    then 1 / Geometry.cross (RasterTriangle2D.p1 this) (RasterTriangle2D.p2 this)
                            (RasterTriangle2D.p3 this)
    else 0.
Proof. reflexivity. Qed.

Lemma Calc_bounds (this : T) :
  RasterTriangle2D.bounds (Calc this)
  = Rectangle2D.mk
      (Vector2D.mk
         (Mathematics.Min (Vector2D.X (RasterTriangle2D.p1 this))
            (Vector2D.X (RasterTriangle2D.p2 this)) (Vector2D.X (RasterTriangle2D.p3 this)))
         (Mathematics.Min (Vector2D.Y (RasterTriangle2D.p1 this))
            (Vector2D.Y (RasterTriangle2D.p2 this)) (Vector2D.Y (RasterTriangle2D.p3 this))))
      (Vector2D.mk
         (Mathematics.Max (Vector2D.X (RasterTriangle2D.p1 this))
            (Vector2D.X (RasterTriangle2D.p2 this)) (Vector2D.X (RasterTriangle2D.p3 this)))
         (Mathematics.Max (Vector2D.Y (RasterTriangle2D.p1 this))
            (Vector2D.Y (RasterTriangle2D.p2 this)) (Vector2D.Y (RasterTriangle2D.p3 this)))).
Proof. reflexivity. Qed.

Lemma guard_spec (this : T) :
  RasterTriangle2D.degenerate_guard EPSILON this = true
  <-> Qabs (RasterTriangle2D.denominator this) < EPSILON.
Proof.
  unfold RasterTriangle2D.degenerate_guard; cbn [f_ltb Q_Scalar].
  rewrite Qltb_lt, FAbs_Qabs. reflexivity.
Qed.

Lemma guard_false_spec (this : T) :
  RasterTriangle2D.degenerate_guard EPSILON this = false
  <-> EPSILON <= Qabs (RasterTriangle2D.denominator this).
Proof.
  unfold RasterTriangle2D.degenerate_guard; cbn [f_ltb Q_Scalar].
  rewrite Qltb_ge, FAbs_Qabs. reflexivity.
Qed.

(** The sentinel is stored exactly when the construction-time test fails:
    the reciprocal of a non-zero number is not zero. *)
Lemma Calc_flagged_iff (this : T) :
  0 <= EPSILON ->
  Geometry.flagged_degenerate (Calc this) <-> Geometry.area_test EPSILON this = false.
Proof.
  intros Hpos. unfold Geometry.flagged_degenerate. rewrite Calc_denominator.
  destruct (Geometry.area_test EPSILON this) eqn:E.
  - apply area_test_spec in E.
    split; [| discriminate]. intros Hz. exfalso.
    set (d := Geometry.cross _ _ _) in *.
    assert (Hd : ~ d == 0).
    { intros Hd. rewrite Hd in E. cbn in E. lra. }
    assert (Hone : d * (1 / d) == 1) by (field; exact Hd).
    rewrite Hz in Hone. lra.
  - split; reflexivity.
Qed.
(** Idempotence: a second recalculation changes nothing. *)
Lemma Calc_idempotent (this : T) : Calc (Calc this) = Calc this.
Proof. reflexivity. Qed.
End Recalculation.

(** ** The barycentric kernel *)

Section Barycentric.
Variable Material : Type.
Variable EPSILON : Q.
Hypothesis EPSILON_pos : 0 < EPSILON.
Local Abbreviation T := (@RasterTriangle2D.t Q Material).
Local Abbreviation Calc := (RasterTriangle2D.CalculateBoundsAndDenominator EPSILON).
Local Abbreviation GBC := (RasterTriangle2D.GetBarycentricCoords EPSILON).

Lemma GetBarycentricCoords_early (this : T) (x y : Q) (uvw : Q * Q * Q) :
  RasterTriangle2D.degenerate_guard EPSILON this = true ->
  GBC this x y uvw = (false, uvw).
Proof.
  intros E. unfold RasterTriangle2D.GetBarycentricCoords. rewrite E. reflexivity.
Qed.

(** What lines 73 to 81 compute, once the guard of line 70 is passed. *)
Lemma GetBarycentricCoords_computed (this : T) (x y : Q) (uvw : Q * Q * Q) :
  RasterTriangle2D.degenerate_guard EPSILON this = false ->
  let qx := x - Vector2D.X (RasterTriangle2D.p1 this) in
  let qy := y - Vector2D.Y (RasterTriangle2D.p1 this) in
  let v := (qx * Vector2D.Y (RasterTriangle2D.v1 this)
            - Vector2D.X (RasterTriangle2D.v1 this) * qy)
           * RasterTriangle2D.denominator this in
  let w := (Vector2D.X (RasterTriangle2D.v0 this) * qy
            - qx * Vector2D.Y (RasterTriangle2D.v0 this))
           * RasterTriangle2D.denominator this in
  let u := 1 - v - w in
  GBC this x y uvw
  = (Qle_bool 0 v && Qle_bool 0 w && Qle_bool 0 u, (u, v, w)).
Proof.
  intros E. unfold RasterTriangle2D.GetBarycentricCoords. rewrite E. reflexivity.
Qed.

Lemma inside_spec (u v w : Q) :
  Qle_bool 0 v && Qle_bool 0 w && Qle_bool 0 u = true
  <-> 0 <= u /\ 0 <= v /\ 0 <= w.
Proof. rewrite !andb_true_iff, !Qle_bool_iff. tauto. Qed.

(** Past the guard the code computes the coordinates of the specification
    and the inclusive test on them. *)
Lemma GetBarycentricCoords_barycentric (this : T) (x y : Q) (uvw : Q * Q * Q) :
  RasterTriangle2D.degenerate_guard EPSILON this = false ->
  GBC this x y uvw
  = (Geometry.inside (Geometry.barycentric this x y), Geometry.barycentric this x y).
Proof.
  intros E. rewrite (GetBarycentricCoords_computed _ x y uvw E). cbv zeta.
  unfold Geometry.barycentric, Geometry.inside. f_equal.
  repeat match goal with |- context [Qle_bool ?a ?b] => destruct (Qle_bool a b) end;
    reflexivity.
Qed.

(** A point with a coordinate equal to zero and the other two
    non-negative counts as inside. *)
Lemma inside_closed (u v w : Q) :
  Geometry.inside (u, v, w) = true <-> 0 <= u /\ 0 <= v /\ 0 <= w.
Proof.
  unfold Geometry.inside. rewrite !andb_true_iff, !Qle_bool_iff. tauto.
Qed.

(** Past the guard the three coordinates add up to one. *)
Lemma computed_sum_one (this : T) (x y : Q) (uvw : Q * Q * Q) :
  RasterTriangle2D.degenerate_guard EPSILON this = false ->
  let '(_, (u, v, w)) := GBC this x y uvw in u + v + w == 1.
Proof.
  intros E. rewrite (GetBarycentricCoords_computed _ x y uvw E). cbv zeta. ring.
Qed.

(** Past the guard, a recalculated triangle has the coordinates
    [(1,0,0)], [(0,1,0)], [(0,0,1)] at its vertices. *)
Lemma computed_at_vertices (this : T) (uvw : Q * Q * Q) :
  Geometry.area_test EPSILON this = true ->
  RasterTriangle2D.degenerate_guard EPSILON (Calc this) = false ->
  (let '(_, (u, v, w)) :=
     GBC (Calc this) (Vector2D.X (RasterTriangle2D.p1 this))
         (Vector2D.Y (RasterTriangle2D.p1 this)) uvw
   in u == 1 /\ v == 0 /\ w == 0)
  /\ (let '(_, (u, v, w)) :=
     GBC (Calc this) (Vector2D.X (RasterTriangle2D.p2 this))
         (Vector2D.Y (RasterTriangle2D.p2 this)) uvw
   in u == 0 /\ v == 1 /\ w == 0)
  /\ (let '(_, (u, v, w)) :=
     GBC (Calc this) (Vector2D.X (RasterTriangle2D.p3 this))
         (Vector2D.Y (RasterTriangle2D.p3 this)) uvw
   in u == 0 /\ v == 0 /\ w == 1).
Proof.
  intros Ha Eg.
  rewrite !(GetBarycentricCoords_computed _ _ _ uvw Eg). cbv zeta.
  rewrite Calc_denominator, Ha.
  destruct (Calc_edges EPSILON this) as [-> ->].
  destruct (Calc_vertices EPSILON this) as (-> & _ & _).
  unfold Vector2D.sub, Geometry.cross; cbn [Vector2D.X Vector2D.Y f_sub Q_Scalar].
  apply area_test_spec in Ha. unfold Geometry.cross in Ha.
  set (d := (_ - _) * (_ - _) - _) in *.
  assert (Hd : ~ d == 0).
  { intros Hd. rewrite Hd in Ha. cbn in Ha. lra. }
  subst d.
  repeat split; field; exact Hd.
Qed.


(** A recalculated triangle takes the early return exactly when it was
    flagged degenerate or its cross product exceeds [1 / EPSILON]. *)
Lemma guard_after_Calc (this : T) :
  RasterTriangle2D.degenerate_guard EPSILON (Calc this) = true
  <-> Geometry.area_test EPSILON this = false
      \/ 1 / EPSILON < Qabs (Geometry.cross (RasterTriangle2D.p1 this)
                              (RasterTriangle2D.p2 this) (RasterTriangle2D.p3 this)).
Proof.
  rewrite guard_spec, Calc_denominator.
  set (d := Geometry.cross _ _ _).
  destruct (Geometry.area_test EPSILON this) eqn:Ha.
  - apply area_test_spec in Ha. fold d in Ha.
    assert (Hd : 0 < Qabs d) by lra.
    assert (Hinv : Qabs (1 / d) == 1 / Qabs d).
    { unfold Qdiv. rewrite Qabs_Qmult, Qabs_Qinv. reflexivity. }
    rewrite Hinv.
    rewrite (Qinv_lt_swap Hd EPSILON_pos).
    split; [intros Hlt; right; exact Hlt | intros [Hf | Hlt]; [discriminate | exact Hlt]].
  - split; [left; reflexivity | intros _; cbn; exact EPSILON_pos].
Qed.

(** Whatever the positive threshold is, some triangle that passes the
    construction-time test takes the early return at every point. *)
Lemma large_triangle_early (x y : Q) (uvw : Q * Q * Q) :
  let this := RasterTriangle2D.of_vertices Material EPSILON
                (Vector2D.mk 0 0) (Vector2D.mk (EPSILON + 1 / EPSILON + 1) 0)
                (Vector2D.mk 0 1) in
  ~ Geometry.flagged_degenerate this
  /\ GBC this x y uvw = (false, uvw).
Proof.
  cbv zeta. unfold RasterTriangle2D.of_vertices.
  set (t0 := RasterTriangle2D.set_vertices _ _ _ _).
  assert (Hc : Geometry.cross (RasterTriangle2D.p1 t0) (RasterTriangle2D.p2 t0)
                 (RasterTriangle2D.p3 t0) == EPSILON + 1 / EPSILON + 1).
  { unfold Geometry.cross; cbn. ring. }
  assert (Hi : 0 < 1 / EPSILON).
  { apply Qlt_shift_div_l; [exact EPSILON_pos | lra]. }
  assert (Habs : Qabs (Geometry.cross (RasterTriangle2D.p1 t0) (RasterTriangle2D.p2 t0)
                 (RasterTriangle2D.p3 t0)) == EPSILON + 1 / EPSILON + 1).
  { rewrite Hc. apply Qabs_pos. lra. }
  assert (Ha : Geometry.area_test EPSILON t0 = true).
  { apply area_test_spec. rewrite Habs. lra. }
  split.
  - rewrite Calc_flagged_iff by lra. rewrite Ha. discriminate.
  - apply GetBarycentricCoords_early, guard_after_Calc. right. rewrite Habs. lra.
Qed.
End Barycentric.

(** ** The early return on triangles that are not degenerate *)

(** C1.  Checked on the triangle [(0,0)], [(100,0)], [(0,100)] with the
    threshold [1/1000] and the query point [(1,1)]: the triangle is not
    flagged degenerate and the coordinates of the point are all
    non-negative, so the point is inside; [GetBarycentricCoords] reports
    [false] and writes no coordinate. *)
Theorem C1_large_triangle_reports_outside :
  ~ Geometry.flagged_degenerate Examples.large
  /\ Geometry.inside (Geometry.barycentric Examples.large 1 1) = true
  /\ RasterTriangle2D.GetBarycentricCoords Examples.EPSILON Examples.large 1 1 (0, 0, 0)
     = (false, (0, 0, 0)).
Proof.
  split; [| split].
  - unfold Geometry.flagged_degenerate. vm_compute. discriminate.
  - vm_compute. reflexivity.
  - vm_compute. reflexivity.
Qed.

(** C2.  Checked on the same triangle: its cross product [10000] passes the
    construction-time test [|denominator| > EPSILON], the stored reciprocal
    is not the sentinel, and yet the test of the early return holds, because
    the reciprocal [1/10000] is below the threshold. *)
Theorem C2_large_triangle_takes_early_return :
  Geometry.area_test Examples.EPSILON
    (RasterTriangle2D.set_vertices (RasterTriangle2D.default unit)
       (Vector2D.mk 0 0) (Vector2D.mk 100 0) (Vector2D.mk 0 100)) = true
  /\ RasterTriangle2D.denominator Examples.large == 1 # 10000
  /\ ~ Geometry.flagged_degenerate Examples.large
  /\ RasterTriangle2D.degenerate_guard Examples.EPSILON Examples.large = true.
Proof.
  repeat split.
  unfold Geometry.flagged_degenerate. vm_compute. discriminate.
Qed.

(** C7.  Checked on the same triangle with the caller's variables holding
    [(0,0,0)]: after the call they still do, and their sum is not [1]. *)
Theorem C7_large_triangle_sum_not_one :
  ~ Geometry.flagged_degenerate Examples.large
  /\ let '(_, (u, v, w)) :=
       RasterTriangle2D.GetBarycentricCoords Examples.EPSILON Examples.large 1 1 (0, 0, 0)
     in ~ u + v + w == 1.
Proof.
  split.
  - unfold Geometry.flagged_degenerate. vm_compute. discriminate.
  - vm_compute. discriminate.
Qed.

(** C8.  Checked on the same triangle at its second vertex [(100,0)], where
    the coordinates are [(0,1,0)]: the call reports [false] and leaves the
    caller's [(0,0,0)] in place. *)
Theorem C8_large_triangle_vertex_not_exact :
  ~ Geometry.flagged_degenerate Examples.large
  /\ RasterTriangle2D.p2 Examples.large = Vector2D.mk 100 0
  /\ (let '(u, v, w) := Geometry.barycentric Examples.large 100 0 in
      u == 0 /\ v == 1 /\ w == 0)
  /\ RasterTriangle2D.GetBarycentricCoords Examples.EPSILON Examples.large 100 0 (0, 0, 0)
     = (false, (0, 0, 0)).
Proof.
  split; [| split; [| split]].
  - unfold Geometry.flagged_degenerate. vm_compute. discriminate.
  - reflexivity.
  - vm_compute. repeat split.
  - vm_compute. reflexivity.
Qed.

(** ** Degenerate triangles *)

Lemma collinear_cross (a b c : Vector2D.t Q) :
  Geometry.collinear a b c -> Geometry.cross a b c == 0.
Proof.
  intros (l & m & n & Hnz & Ha & Hb & Hc).
  unfold Geometry.on_line in *. unfold Geometry.cross.
  destruct a as [ax ay], b as [bx by_], c as [cx cy]; cbn [Vector2D.X Vector2D.Y] in *.
  set (d := (bx - ax) * (cy - ay) - (cx - ax) * (by_ - ay)).
  assert (Hl : l * d == 0).
  { setoid_replace (l * d)
      with ((cy - ay) * ((l * bx + m * by_) - (l * ax + m * ay))
            - (by_ - ay) * ((l * cx + m * cy) - (l * ax + m * ay)))
      by (unfold d; ring).
    rewrite Ha, Hb, Hc. ring. }
  assert (Hm : m * d == 0).
  { setoid_replace (m * d)
      with ((bx - ax) * ((l * cx + m * cy) - (l * ax + m * ay))
            - (cx - ax) * ((l * bx + m * by_) - (l * ax + m * ay)))
      by (unfold d; ring).
    rewrite Ha, Hb, Hc. ring. }
  destruct (Qeq_dec d 0) as [Hd | Hd]; [exact Hd | exfalso].
  apply Hnz. split.
  - apply Qmult_integral in Hl. tauto.
  - apply Qmult_integral in Hm. tauto.
Qed.

Section Degenerate.
Variable Material : Type.
Variable EPSILON : Q.
Hypothesis EPSILON_pos : 0 < EPSILON.
Context {Quaternion Transform : Type} `{CameraMath Q Quaternion Transform}.
Local Abbreviation T := (@RasterTriangle2D.t Q Material).
Local Abbreviation Calc := (RasterTriangle2D.CalculateBoundsAndDenominator EPSILON).
Local Abbreviation GBC := (RasterTriangle2D.GetBarycentricCoords EPSILON).

(** The projecting constructor ends with a recalculation. *)
Lemma create_is_Calc camTransform lookDirection sourceTriangle mat (this : T) :
  RasterTriangle2D.create EPSILON camTransform lookDirection sourceTriangle mat
    = Some this ->
  exists this0 : T, this = Calc this0.
Proof.
  unfold RasterTriangle2D.create.
  destruct (RasterTriangle2D.src_p1 sourceTriangle) as [a |]; [| discriminate].
  destruct (RasterTriangle2D.src_p2 sourceTriangle) as [b |]; [| discriminate].
  destruct (RasterTriangle2D.src_p3 sourceTriangle) as [c |]; [| discriminate].
  intros E. injection E as <-. eexists. reflexivity.
Qed.

Lemma sentinel_early (this : T) (x y : Q) (uvw : Q * Q * Q) :
  RasterTriangle2D.denominator this = 0 -> GBC this x y uvw = (false, uvw).
Proof.
  intros E. apply GetBarycentricCoords_early, guard_spec.
  rewrite E. cbn. exact EPSILON_pos.
Qed.

Lemma Calc_collinear (this : T) :
  Geometry.collinear (RasterTriangle2D.p1 this) (RasterTriangle2D.p2 this)
                     (RasterTriangle2D.p3 this) ->
  RasterTriangle2D.denominator (Calc this) = 0.
Proof.
  intros Hc. apply collinear_cross in Hc.
  rewrite Calc_denominator.
  destruct (Geometry.area_test EPSILON this) eqn:Ha; [| reflexivity].
  apply area_test_spec in Ha. rewrite Hc in Ha. cbn in Ha. lra.
Qed.

(** In exact arithmetic, a triangle whose three vertices are collinear
    holds the sentinel [0] in [denominator] after
    [CalculateBoundsAndDenominator], and so after the projecting
    constructor, and [GetBarycentricCoords] returns [false] on it at every
    query point. *)
Lemma collinear_never_inside_exact :
  (forall this : T,
      Geometry.collinear (RasterTriangle2D.p1 this) (RasterTriangle2D.p2 this)
                         (RasterTriangle2D.p3 this) ->
      RasterTriangle2D.denominator (Calc this) = 0
      /\ forall x y uvw, GBC (Calc this) x y uvw = (false, uvw))
  /\ (forall camTransform lookDirection sourceTriangle mat (this : T),
      RasterTriangle2D.create EPSILON camTransform lookDirection sourceTriangle mat
        = Some this ->
      Geometry.collinear (RasterTriangle2D.p1 this) (RasterTriangle2D.p2 this)
                         (RasterTriangle2D.p3 this) ->
      RasterTriangle2D.denominator this = 0
      /\ forall x y uvw, GBC this x y uvw = (false, uvw)).
Proof.
  assert (Hrec : forall this : T,
      Geometry.collinear (RasterTriangle2D.p1 this) (RasterTriangle2D.p2 this)
                         (RasterTriangle2D.p3 this) ->
      RasterTriangle2D.denominator (Calc this) = 0
      /\ forall x y uvw, GBC (Calc this) x y uvw = (false, uvw)).
  { intros this Hc. pose proof (Calc_collinear this Hc) as Hz.
    split; [exact Hz | intros x y uvw; apply sentinel_early; exact Hz]. }
  split; [exact Hrec |].
  intros camTransform lookDirection sourceTriangle mat this Hcreate Hc.
  destruct (create_is_Calc _ _ _ _ Hcreate) as [this0 ->].
  apply Hrec. exact Hc.
Qed.

(** C9.  A default-constructed triangle holds [0] in [denominator], null
    in every pointer member, [false] in [hasUV] and [0] in
    [averageDepth]; [GetBarycentricCoords] returns [false] on it at every
    query point, and its result on any triangle does not depend on the
    pointer members. *)
Theorem C9_default_never_inside :
  let this := RasterTriangle2D.default Material in
  RasterTriangle2D.denominator this = 0
  /\ (RasterTriangle2D.t3p1 this = None /\ RasterTriangle2D.t3p2 this = None
      /\ RasterTriangle2D.t3p3 this = None /\ RasterTriangle2D.normal this = None)
  /\ RasterTriangle2D.material this = None
  /\ (RasterTriangle2D.p1UV this = None /\ RasterTriangle2D.p2UV this = None
      /\ RasterTriangle2D.p3UV this = None)
  /\ RasterTriangle2D.hasUV this = false
  /\ RasterTriangle2D.averageDepth this = 0
  /\ (forall x y uvw, GBC this x y uvw = (false, uvw))
  /\ (forall (other : T) a b c n m u1 u2 u3 x y uvw,
         GBC (Geometry.set_pointers other a b c n m u1 u2 u3) x y uvw
         = GBC other x y uvw).
Proof.
  cbv zeta. repeat split.
  intros x y uvw. apply sentinel_early. reflexivity.
Qed.
End Degenerate.

Lemma diagonal_collinear :
  Geometry.collinear (RasterTriangle2D.p1 Examples.diagonal)
    (RasterTriangle2D.p2 Examples.diagonal) (RasterTriangle2D.p3 Examples.diagonal).
Proof.
  exists 1, (-1), 0. unfold Geometry.on_line. cbn.
  repeat split; try reflexivity. intros [E _]. discriminate E.
Qed.

Lemma C9_witness :
  0 < Examples.EPSILON
  /\ forall x y uvw,
      RasterTriangle2D.GetBarycentricCoords Examples.EPSILON
        (RasterTriangle2D.default unit) x y uvw = (false, uvw).
Proof.
  assert (Hpos : 0 < Examples.EPSILON) by reflexivity.
  split; [exact Hpos |].
  apply (@C9_default_never_inside unit Examples.EPSILON Hpos).
Defined.

(** ** Bounds and overlap *)

Lemma min3_sym (a b c : Q) :
  Geometry.min3 a c b == Geometry.min3 a b c
  /\ Geometry.min3 b a c == Geometry.min3 a b c
  /\ Geometry.min3 b c a == Geometry.min3 a b c
  /\ Geometry.min3 c a b == Geometry.min3 a b c
  /\ Geometry.min3 c b a == Geometry.min3 a b c.
Proof. unfold Geometry.min3. repeat split; q_minmax. Qed.

Lemma max3_sym (a b c : Q) :
  Geometry.max3 a c b == Geometry.max3 a b c
  /\ Geometry.max3 b a c == Geometry.max3 a b c
  /\ Geometry.max3 b c a == Geometry.max3 a b c
  /\ Geometry.max3 c a b == Geometry.max3 a b c
  /\ Geometry.max3 c b a == Geometry.max3 a b c.
Proof. unfold Geometry.max3. repeat split; q_minmax. Qed.

(** The minimum of three is below each and is one of them; dually for the
    maximum. *)
Lemma min3_spec (a b c : Q) :
  let m := Geometry.min3 a b c in
  m <= a /\ m <= b /\ m <= c /\ (m == a \/ m == b \/ m == c).
Proof.
  cbv zeta. unfold Geometry.min3.
  repeat split; q_minmax.
Qed.

Lemma max3_spec (a b c : Q) :
  let m := Geometry.max3 a b c in
  a <= m /\ b <= m /\ c <= m /\ (m == a \/ m == b \/ m == c).
Proof.
  cbv zeta. unfold Geometry.max3.
  repeat split; q_minmax.
Qed.

Section Bounds.
Variable Material : Type.
Variable EPSILON : Q.
Context {Quaternion Transform : Type} `{CameraMath Q Quaternion Transform}.
Local Abbreviation T := (@RasterTriangle2D.t Q Material).
Local Abbreviation Calc := (RasterTriangle2D.CalculateBoundsAndDenominator EPSILON).

Lemma Calc_tight (this : T) : Geometry.tight_bounds (Calc this).
Proof.
  unfold Geometry.tight_bounds, Geometry.tight_for.
  rewrite Calc_bounds. cbn [Rectangle2D.minV Rectangle2D.maxV Vector2D.X Vector2D.Y].
  destruct (Calc_vertices EPSILON this) as (-> & -> & ->).
  unfold Geometry.min3, Geometry.max3.
  repeat split; first [apply Min_Qmin | apply Max_Qmax].
Qed.

Lemma Calc_ordered (this : T) : Geometry.ordered (RasterTriangle2D.bounds (Calc this)).
Proof.
  unfold Geometry.ordered. rewrite Calc_bounds.
  cbn [Rectangle2D.minV Rectangle2D.maxV Vector2D.X Vector2D.Y].
  split; apply Min_le_Max.
Qed.

Lemma tight_for_orders (r : Rectangle2D.t Q) (a b c a' b' c' : Vector2D.t Q) :
  List.In (a', b', c') (Geometry.orders a b c) ->
  Geometry.tight_for r a' b' c' -> Geometry.tight_for r a b c.
Proof.
  unfold Geometry.orders, Geometry.tight_for. cbn [List.In].
  pose proof (min3_sym (Vector2D.X a) (Vector2D.X b) (Vector2D.X c)) as (? & ? & ? & ? & ?).
  pose proof (min3_sym (Vector2D.Y a) (Vector2D.Y b) (Vector2D.Y c)) as (? & ? & ? & ? & ?).
  pose proof (max3_sym (Vector2D.X a) (Vector2D.X b) (Vector2D.X c)) as (? & ? & ? & ? & ?).
  pose proof (max3_sym (Vector2D.Y a) (Vector2D.Y b) (Vector2D.Y c)) as (? & ? & ? & ? & ?).
  intros [E | [E | [E | [E | [E | [E | []]]]]]]; injection E as <- <- <-;
    intros (-> & -> & -> & ->); repeat split; first [reflexivity | assumption].
Qed.

(** The bounds of every object are ordered. *)
Lemma Reachable_ordered (this : T) :
  Geometry.Reachable EPSILON this -> Geometry.ordered (RasterTriangle2D.bounds this).
Proof.
  induction 1 as [| cam look src mat this Hc | this a b c _ IH | this _ _].
  - unfold Geometry.ordered; cbn. split; discriminate.
  - unfold RasterTriangle2D.create in Hc.
    destruct (RasterTriangle2D.src_p1 src); [| discriminate].
    destruct (RasterTriangle2D.src_p2 src); [| discriminate].
    destruct (RasterTriangle2D.src_p3 src); [| discriminate].
    injection Hc as <-. apply Calc_ordered.
  - exact IH.
  - apply Calc_ordered.
Qed.
End Bounds.

Section BoundsClaims.
Variable Material : Type.
Variable EPSILON : Q.
Context {Quaternion Transform : Type} `{CameraMath Q Quaternion Transform}.
Local Abbreviation T := (@RasterTriangle2D.t Q Material).
Local Abbreviation Calc := (RasterTriangle2D.CalculateBoundsAndDenominator EPSILON).

(** C5, as amended.  After the projecting constructor and after every
    [CalculateBoundsAndDenominator], [bounds.min] is the componentwise
    minimum and [bounds.max] the componentwise maximum of [p1], [p2],
    [p3], and the bounds do not depend on the order the three vertices are
    given in. *)
Theorem C5_recalculated_bounds_tight :
  (forall this : T, Geometry.tight_bounds (Calc this))
  /\ (forall camTransform lookDirection sourceTriangle mat (this : T),
         RasterTriangle2D.create EPSILON camTransform lookDirection sourceTriangle mat
           = Some this ->
         Geometry.tight_bounds this)
  /\ (forall (this : T) a b c,
         List.In (a, b, c)
           (Geometry.orders (RasterTriangle2D.p1 this) (RasterTriangle2D.p2 this)
                            (RasterTriangle2D.p3 this)) ->
         Geometry.tight_for
           (RasterTriangle2D.bounds (Calc (RasterTriangle2D.set_vertices this a b c)))
           (RasterTriangle2D.p1 this) (RasterTriangle2D.p2 this)
           (RasterTriangle2D.p3 this)).
Proof.
  split; [| split].
  - apply Calc_tight.
  - intros camTransform lookDirection sourceTriangle mat this Hc.
    apply create_is_Calc in Hc. destruct Hc as [this0 ->]. apply Calc_tight.
  - intros this a b c Hin.
    eapply tight_for_orders; [exact Hin |].
    exact (Calc_tight EPSILON (RasterTriangle2D.set_vertices this a b c)).
Qed.

(** Under strict containment and with ordered bounds, the two boxes are
    not separated on any axis, not even by touching. *)
Lemma strictly_contains_meets (outer inner : Rectangle2D.t Q) :
  Geometry.ordered inner ->
  Geometry.strictly_contains outer inner ->
  Vector2D.X (Rectangle2D.minV outer) < Vector2D.X (Rectangle2D.maxV inner)
  /\ Vector2D.X (Rectangle2D.minV inner) < Vector2D.X (Rectangle2D.maxV outer)
  /\ Vector2D.Y (Rectangle2D.minV outer) < Vector2D.Y (Rectangle2D.maxV inner)
  /\ Vector2D.Y (Rectangle2D.minV inner) < Vector2D.Y (Rectangle2D.maxV outer).
Proof.
  unfold Geometry.ordered, Geometry.strictly_contains.
  intros (? & ?) (? & ? & ? & ?). repeat split; lra.
Qed.

Lemma Rectangle2D_Overlaps_spec (a b : Rectangle2D.t Q) :
  Rectangle2D.Overlaps a b = true <-> Geometry.boxes_intersect a b.
Proof.
  unfold Rectangle2D.Overlaps, Geometry.boxes_intersect; cbn [f_ltb Q_Scalar].
  rewrite negb_true_iff, !orb_false_iff, !Qltb_ge. tauto.
Qed.

(** C6.  [Overlaps] is the bounding-box intersection test of the stored
    [bounds] with the query rectangle, and it returns [true] for every
    query rectangle that strictly contains the bounds. *)
Theorem C6_overlaps_is_bounds_test (this : T) (queryRect : Rectangle2D.t Q) :
  Geometry.Reachable EPSILON this ->
  RasterTriangle2D.Overlaps this queryRect
    = Rectangle2D.Overlaps (RasterTriangle2D.bounds this) queryRect
  /\ (RasterTriangle2D.Overlaps this queryRect = true
      <-> Geometry.boxes_intersect (RasterTriangle2D.bounds this) queryRect)
  /\ (Geometry.strictly_contains queryRect (RasterTriangle2D.bounds this) ->
      RasterTriangle2D.Overlaps this queryRect = true).
Proof.
  intros Hr. split; [reflexivity | split].
  - unfold RasterTriangle2D.Overlaps. apply Rectangle2D_Overlaps_spec.
  - intros Hs. unfold RasterTriangle2D.Overlaps.
    apply Rectangle2D_Overlaps_spec.
    pose proof (strictly_contains_meets (Reachable_ordered Hr) Hs) as (? & ? & ? & ?).
    unfold Geometry.boxes_intersect. repeat split; lra.
Qed.
End BoundsClaims.

(** C5, as stated, fails on a default-constructed triangle: its vertices
    are all [(0,0)] and its bounds reach to [(1,1)]. *)
Lemma C5_default_bounds_not_tight :
  ~ Geometry.tight_bounds (RasterTriangle2D.default unit).
Proof.
  intros (_ & _ & Hx & _). vm_compute in Hx. discriminate Hx.
Qed.

Lemma C5_witness :
  exists this : @RasterTriangle2D.t Q unit,
    RasterTriangle2D.create Examples.EPSILON Examples.camera Camera.identity
      Examples.source None = Some this
    /\ Geometry.tight_bounds this.
Proof.
  eexists. split; [reflexivity |].
  exact (proj1 (proj2 (@C5_recalculated_bounds_tight unit Examples.EPSILON
                         Camera.Quaternion Camera.Transform Camera.Q_CameraMath))
               Examples.camera Camera.identity Examples.source None _ eq_refl).
Defined.

Lemma C6_witness :
  Geometry.Reachable (Material := unit) (H := Camera.Q_CameraMath) Examples.EPSILON
                     (RasterTriangle2D.default unit)
  /\ Geometry.strictly_contains Examples.around
       (RasterTriangle2D.bounds (RasterTriangle2D.default unit))
  /\ RasterTriangle2D.Overlaps (RasterTriangle2D.default unit) Examples.around = true.
Proof.
  assert (Hr : Geometry.Reachable (Material := unit) (H := Camera.Q_CameraMath)
                 Examples.EPSILON (RasterTriangle2D.default unit))
    by constructor.
  assert (Hs : Geometry.strictly_contains Examples.around
                 (RasterTriangle2D.bounds (RasterTriangle2D.default unit)))
    by (repeat split).
  split; [exact Hr | split; [exact Hs |]].
  exact (proj2 (proj2 (C6_overlaps_is_bounds_test Examples.around Hr)) Hs).
Defined.

(** ** The projecting constructor *)

Section Projection.
Variable Material : Type.
Variable EPSILON : Q.
Context {Quaternion Transform : Type} `{CameraMath Q Quaternion Transform}.
Local Abbreviation T := (@RasterTriangle2D.t Q Material).

(** C4.  With [inverseCameraRotation = Conjugate(rotation * lookRotation)]
    and [screenPoint = inverseCameraRotation.RotateVector(vertex -
    position) / scale] for each source vertex, the constructor yields the
    triangle whose [p1], [p2], [p3] are the [X], [Y] of the three screen
    points in source order and whose [averageDepth] is the mean of their
    three [Z]. *)
Theorem C4_projecting_constructor
        (camTransform : Transform) (lookDirection : Quaternion)
        (sourceTriangle : RasterTriangle2D.RasterTriangle3D)
        (mat : option Material) (a b c : Vector3D.t Q) :
  RasterTriangle2D.src_p1 sourceTriangle = Some a ->
  RasterTriangle2D.src_p2 sourceTriangle = Some b ->
  RasterTriangle2D.src_p3 sourceTriangle = Some c ->
  let inverseCameraRotation :=
    Conjugate (Multiply (GetRotation camTransform) lookDirection) in
  let screenPoint vertex :=
    DivideByScale
      (RotateVector inverseCameraRotation (Vector3D.sub vertex (GetPosition camTransform)))
      camTransform in
  exists this : T,
    RasterTriangle2D.create EPSILON camTransform lookDirection sourceTriangle mat
      = Some this
    /\ RasterTriangle2D.p1 this
       = Vector2D.mk (Vector3D.X (screenPoint a)) (Vector3D.Y (screenPoint a))
    /\ RasterTriangle2D.p2 this
       = Vector2D.mk (Vector3D.X (screenPoint b)) (Vector3D.Y (screenPoint b))
    /\ RasterTriangle2D.p3 this
       = Vector2D.mk (Vector3D.X (screenPoint c)) (Vector3D.Y (screenPoint c))
    /\ 3 * RasterTriangle2D.averageDepth this
       == Vector3D.Z (screenPoint a) + Vector3D.Z (screenPoint b)
          + Vector3D.Z (screenPoint c).
Proof.
  intros Ha Hb Hc. cbv zeta.
  unfold RasterTriangle2D.create. rewrite Ha, Hb, Hc.
  eexists. split; [reflexivity |].
  repeat split.
  cbn [RasterTriangle2D.averageDepth RasterTriangle2D.CalculateBoundsAndDenominator
       f_add f_div f_three Q_Scalar].
  unfold RasterTriangle2D.project. field.
Qed.

(** With a null vertex pointer the constructor has no result. *)
Lemma create_null camTransform lookDirection sourceTriangle (mat : option Material) :
  RasterTriangle2D.src_p1 sourceTriangle = None
  \/ RasterTriangle2D.src_p2 sourceTriangle = None
  \/ RasterTriangle2D.src_p3 sourceTriangle = None ->
  RasterTriangle2D.create EPSILON camTransform lookDirection sourceTriangle mat = None.
Proof.
  unfold RasterTriangle2D.create.
  intros [E | [E | E]]; rewrite E;
    repeat match goal with |- context [match ?o with _ => _ end] => destruct o end;
    reflexivity.
Qed.
End Projection.

Lemma C4_witness :
  exists this : @RasterTriangle2D.t Q unit,
    RasterTriangle2D.create Examples.EPSILON Examples.camera Camera.identity
      Examples.source None = Some this
    /\ RasterTriangle2D.p1 this = Vector2D.mk (0 / 1) (0 / 1)
    /\ RasterTriangle2D.p2 this = Vector2D.mk (1 / 1) (0 / 1)
    /\ RasterTriangle2D.p3 this = Vector2D.mk (0 / 1) (1 / 1)
    /\ 3 * RasterTriangle2D.averageDepth this == 15.
Proof.
  destruct (@C4_projecting_constructor unit Examples.EPSILON _ _ Camera.Q_CameraMath
              Examples.camera Camera.identity Examples.source None
              (Vector3D.mk 0 0 5) (Vector3D.mk 1 0 5) (Vector3D.mk 0 1 5)
              eq_refl eq_refl eq_refl)
    as (this & Hc & H1 & H2 & H3 & Hd).
  exists this. split; [exact Hc |].
  rewrite H1, H2, H3, Hd. repeat split.
Defined.

(** The projection example of the specification: the screen points are
    [(0,0)], [(1,0)], [(0,1)] and the average depth is [5]. *)
Example projection_example :
  match RasterTriangle2D.create (Material := unit) Examples.EPSILON Examples.camera
          Camera.identity Examples.source None with
  | Some this =>
      Vector2D.X (RasterTriangle2D.p1 this) == 0 /\ Vector2D.Y (RasterTriangle2D.p1 this) == 0
      /\ Vector2D.X (RasterTriangle2D.p2 this) == 1 /\ Vector2D.Y (RasterTriangle2D.p2 this) == 0
      /\ Vector2D.X (RasterTriangle2D.p3 this) == 0 /\ Vector2D.Y (RasterTriangle2D.p3 this) == 1
      /\ RasterTriangle2D.averageDepth this == 5
  | None => False
  end.
Proof. vm_compute. repeat split. Qed.

(** A null vertex pointer in the source triangle: no triangle is built. *)
Example null_vertex_example :
  RasterTriangle2D.create (Material := unit) Examples.EPSILON Examples.camera
    Camera.identity Examples.source_null None = None.
Proof. reflexivity. Qed.

(** The interpolation example of the specification: in the triangle
    [(0,0)], [(4,0)], [(0,4)] the point [(1,1)] has the coordinates
    [(1/2, 1/4, 1/4)] and is inside. *)
Example interpolation_example :
  let '(inside, (u, v, w)) :=
    RasterTriangle2D.GetBarycentricCoords Examples.EPSILON Examples.small 1 1 (0, 0, 0) in
  inside = true /\ u == 1 # 2 /\ v == 1 # 4 /\ w == 1 # 4.
Proof. vm_compute. repeat split. Qed.

(** ** RGB565 packing *)

Section Packing.
Local Open Scope Z_scope.

Lemma lor_below_pow2 (a b n : Z) :
  0 <= n -> 0 <= a < 2 ^ n -> 0 <= b < 2 ^ n -> 0 <= Z.lor a b < 2 ^ n.
Proof.
  intros Hn Ha Hb.
  assert (E : Z.lor a b = Z.lor a b mod 2 ^ n).
  { rewrite <- Z.land_ones by exact Hn.
    rewrite Z.land_lor_distr_l, !Z.land_ones by exact Hn.
    rewrite !Z.mod_small by assumption. reflexivity. }
  rewrite E. apply Z.mod_pos_bound. lia.
Qed.

Lemma uint8_t_id (z : Z) : RGBColor.is_uint8 z -> RGBColor.uint8_t z = z.
Proof. intros Hz. apply Z.mod_small. exact Hz. Qed.

Lemma uint16_t_id (z : Z) : 0 <= z < 2 ^ 16 -> RGBColor.uint16_t z = z.
Proof. intros Hz. apply Z.mod_small. exact Hz. Qed.

(** The three fields fit their places: five, six and five bits. *)
Lemma rgb565_fields (r g b : Z) :
  RGBColor.is_uint8 r -> RGBColor.is_uint8 g -> RGBColor.is_uint8 b ->
  0 <= Z.shiftr r 3 < 2 ^ 5 /\ 0 <= Z.shiftr g 2 < 2 ^ 6 /\ 0 <= Z.shiftr b 3 < 2 ^ 5.
Proof.
  unfold RGBColor.is_uint8. intros Hr Hg Hb.
  rewrite !Z.shiftr_div_pow2 by lia.
  change (2 ^ 3) with 8. change (2 ^ 2) with 4.
  change (2 ^ 5) with 32. change (2 ^ 6) with 64. change (2 ^ 8) with 256 in *.
  repeat split;
    first [apply Z.div_pos; lia | apply Z.div_lt_upper_bound; lia].
Qed.

Lemma rgb565_range (r g b : Z) :
  RGBColor.is_uint8 r -> RGBColor.is_uint8 g -> RGBColor.is_uint8 b ->
  0 <= RGBColor.rgb565 r g b < 2 ^ 16.
Proof.
  intros Hr Hg Hb.
  destruct (rgb565_fields Hr Hg Hb) as (Fr & Fg & Fb).
  unfold RGBColor.rgb565.
  rewrite !Z.shiftl_mul_pow2 by lia.
  change (2 ^ 11) with 2048. change (2 ^ 5) with 32 in *. change (2 ^ 6) with 64 in *.
  repeat apply lor_below_pow2; change (2 ^ 16) with 65536; lia.
Qed.

Lemma Pack_exact (this : RGBColor.t) :
  RGBColor.is_uint8 (RGBColor.r this) -> RGBColor.is_uint8 (RGBColor.g this) ->
  RGBColor.is_uint8 (RGBColor.b this) ->
  RGBColor.Pack this
  = RGBColor.mk (RGBColor.rgb565 (RGBColor.r this) (RGBColor.g this) (RGBColor.b this))
                (RGBColor.r this) (RGBColor.g this) (RGBColor.b this).
Proof.
  intros Hr Hg Hb.
  destruct (rgb565_fields Hr Hg Hb) as (Fr & Fg & Fb).
  unfold RGBColor.Pack. f_equal.
  rewrite (uint16_t_id (z := Z.shiftr (RGBColor.r this) 3)),
          (uint16_t_id (z := Z.shiftr (RGBColor.g this) 2)),
          (uint16_t_id (z := Z.shiftr (RGBColor.b this) 3))
    by (change (2 ^ 16) with 65536; change (2 ^ 5) with 32 in *;
        change (2 ^ 6) with 64 in *; lia).
  apply uint16_t_id. apply (rgb565_range Hr Hg Hb).
Qed.

(** C10.  After [SetColor(r, g, b)], and so after the constructor
    [RGBColor(r, g, b)], the member [color] is
    [((r >> 3) << 11) | ((g >> 2) << 5) | (b >> 3)] with no reduction
    taking effect, and the members [r], [g], [b] hold the channels
    unchanged. *)
Theorem C10_pack_rgb565 (this : RGBColor.t) (r g b : Z) :
  RGBColor.is_uint8 r -> RGBColor.is_uint8 g -> RGBColor.is_uint8 b ->
  RGBColor.SetColor this r g b = RGBColor.mk (RGBColor.rgb565 r g b) r g b
  /\ RGBColor.create r g b = RGBColor.mk (RGBColor.rgb565 r g b) r g b
  /\ 0 <= RGBColor.rgb565 r g b < 2 ^ 16.
Proof.
  intros Hr Hg Hb.
  assert (E : forall this0, RGBColor.SetColor this0 r g b
                            = RGBColor.mk (RGBColor.rgb565 r g b) r g b).
  { intros this0. unfold RGBColor.SetColor.
    rewrite !uint8_t_id by assumption.
    rewrite Pack_exact by assumption. reflexivity. }
  split; [apply E | split; [apply E | apply (rgb565_range Hr Hg Hb)]].
Qed.
End Packing.

Lemma C10_witness :
  RGBColor.is_uint8 255 /\ RGBColor.is_uint8 128 /\ RGBColor.is_uint8 7
  /\ RGBColor.create 255 128 7 = RGBColor.mk 64512 255 128 7.
Proof.
  assert (Hr : RGBColor.is_uint8 255) by (unfold RGBColor.is_uint8; lia).
  assert (Hg : RGBColor.is_uint8 128) by (unfold RGBColor.is_uint8; lia).
  assert (Hb : RGBColor.is_uint8 7) by (unfold RGBColor.is_uint8; lia).
  repeat (split; [assumption |]).
  exact (proj1 (proj2 (C10_pack_rgb565 RGBColor.default Hr Hg Hb))).
Defined.

(** ** The same runs in single precision *)

(** The threshold is the [float] nearest to one thousandth. *)
Example binary32_EPSILON :
  Binary32.EPSILON = S754_finite false 8589935 (-33).
Proof. vm_compute. reflexivity. Qed.

(** In single precision too, the triangle [(0,0)], [(100,0)], [(0,100)]
    stores a reciprocal that is not the sentinel, and the call at [(1,1)]
    takes the early return. *)
Example binary32_large_triangle_early :
  let z := S754_zero false in
  SFeqb (RasterTriangle2D.denominator Binary32.large) z = false
  /\ RasterTriangle2D.degenerate_guard Binary32.EPSILON Binary32.large = true
  /\ RasterTriangle2D.GetBarycentricCoords Binary32.EPSILON Binary32.large
       (Binary32.of_Z 1) (Binary32.of_Z 1) (z, z, z)
     = (false, (z, z, z)).
Proof. vm_compute. repeat split. Qed.

(** The interpolation example in single precision: [(1/2, 1/4, 1/4)],
    inside. *)
Example binary32_interpolation_example :
  let z := S754_zero false in
  RasterTriangle2D.GetBarycentricCoords Binary32.EPSILON Binary32.small
    (Binary32.of_Z 1) (Binary32.of_Z 1) (z, z, z)
  = (true, (S754_finite false 8388608 (-24), S754_finite false 8388608 (-25),
            S754_finite false 8388608 (-25))).
Proof. vm_compute. reflexivity. Qed.

(** ** RGBColor: layout of the packed colour *)

Section Layout.
Local Open Scope Z_scope.

Lemma land_shiftl_low (hi lo n : Z) :
  0 <= n -> 0 <= lo < 2 ^ n -> Z.land (Z.shiftl hi n) lo = 0.
Proof.
  intros Hn Hlo. apply Z.bits_inj'. intros m Hm.
  rewrite Z.land_spec, Z.bits_0.
  destruct (Z.lt_ge_cases m n) as [Hlt | Hge].
  - rewrite Z.shiftl_spec_low by exact Hlt. reflexivity.
  - rewrite <- (Z.mod_small lo (2 ^ n)) by exact Hlo.
    rewrite Z.mod_pow2_bits_high by lia. apply andb_false_r.
Qed.

Lemma lor_shiftl_low (hi lo n : Z) :
  0 <= n -> 0 <= lo < 2 ^ n -> Z.lor (Z.shiftl hi n) lo = hi * 2 ^ n + lo.
Proof.
  intros Hn Hlo.
  pose proof (land_shiftl_low hi Hn Hlo) as Hd.
  rewrite <- Z.lxor_lor by exact Hd.
  rewrite <- Z.add_nocarry_lxor by exact Hd.
  rewrite Z.shiftl_mul_pow2 by exact Hn. reflexivity.
Qed.

(** The packed value as a sum: the fields do not overlap. *)
Lemma rgb565_sum (r g b : Z) :
  RGBColor.is_uint8 r -> RGBColor.is_uint8 g -> RGBColor.is_uint8 b ->
  RGBColor.rgb565 r g b = (r / 8) * 2048 + (g / 4) * 32 + b / 8.
Proof.
  intros Hr Hg Hb.
  destruct (rgb565_fields Hr Hg Hb) as (Fr & Fg & Fb).
  unfold RGBColor.rgb565.
  rewrite !Z.shiftr_div_pow2 in * by lia.
  change (2 ^ 3) with 8 in *. change (2 ^ 2) with 4 in *.
  change (2 ^ 5) with 32 in *. change (2 ^ 6) with 64 in *.
  assert (Eg : Z.shiftl (g / 4) 5 = g / 4 * 32).
  { rewrite Z.shiftl_mul_pow2 by lia. reflexivity. }
  assert (E1 : Z.lor (Z.shiftl (r / 8) 11) (Z.shiftl (g / 4) 5)
               = Z.shiftl (r / 8 * 64 + g / 4) 5).
  { rewrite lor_shiftl_low; [| lia | rewrite Eg; change (2 ^ 11) with 2048; lia].
    rewrite Eg, Z.shiftl_mul_pow2 by lia.
    change (2 ^ 11) with 2048. change (2 ^ 5) with 32. lia. }
  rewrite E1.
  rewrite lor_shiftl_low; [| lia | change (2 ^ 5) with 32; lia].
  change (2 ^ 5) with 32. lia.
Qed.

(** X1.  In a colour built by the class, bits 15 to 11 of [color] are the
    five high bits of [r], bits 10 to 5 the six high bits of [g] and bits
    4 to 0 the five high bits of [b]; what is lost of a channel is below
    8, 4 and 8. *)
Theorem rgb565_layout (r g b : Z) :
  RGBColor.is_uint8 r -> RGBColor.is_uint8 g -> RGBColor.is_uint8 b ->
  let color := RGBColor.color (RGBColor.create r g b) in
  Z.shiftr color 11 = Z.shiftr r 3
  /\ Z.land (Z.shiftr color 5) 63 = Z.shiftr g 2
  /\ Z.land color 31 = Z.shiftr b 3
  /\ 0 <= r - Z.shiftl (Z.shiftr color 11) 3 < 8
  /\ 0 <= g - Z.shiftl (Z.land (Z.shiftr color 5) 63) 2 < 4
  /\ 0 <= b - Z.shiftl (Z.land color 31) 3 < 8.
Proof.
  intros Hr Hg Hb. cbv zeta.
  assert (Ec : RGBColor.color (RGBColor.create r g b) = RGBColor.rgb565 r g b).
  { unfold RGBColor.create, RGBColor.SetColor.
    rewrite !uint8_t_id by assumption.
    rewrite Pack_exact by assumption. reflexivity. }
  rewrite Ec, (rgb565_sum Hr Hg Hb).
  destruct (rgb565_fields Hr Hg Hb) as (Fr & Fg & Fb).
  rewrite !Z.shiftr_div_pow2 in * by lia.
  change (2 ^ 3) with 8 in *. change (2 ^ 2) with 4 in *.
  change (2 ^ 5) with 32 in *. change (2 ^ 6) with 64 in *.
  change (2 ^ 11) with 2048.
  change 63 with (Z.ones 6). change 31 with (Z.ones 5).
  rewrite !Z.land_ones by lia.
  change (2 ^ 5) with 32 in *. change (2 ^ 6) with 64 in *.
  rewrite !Z.shiftl_mul_pow2 by lia.
  change (2 ^ 3) with 8 in *. change (2 ^ 2) with 4 in *.
  assert (E1 : (r / 8 * 2048 + g / 4 * 32 + b / 8) / 2048 = r / 8).
  { replace (r / 8 * 2048 + g / 4 * 32 + b / 8)
      with ((g / 4 * 32 + b / 8) + (r / 8) * 2048) by lia.
    rewrite Z.div_add by lia. rewrite Z.div_small by lia. lia. }
  assert (E2 : ((r / 8 * 2048 + g / 4 * 32 + b / 8) / 32) mod 64 = g / 4).
  { replace (r / 8 * 2048 + g / 4 * 32 + b / 8)
      with (b / 8 + (r / 8 * 64 + g / 4) * 32) by lia.
    rewrite Z.div_add by lia. rewrite (Z.div_small (b / 8)) by lia.
    rewrite Z.add_0_l, Z.add_comm, Z.mod_add by lia.
    apply Z.mod_small. lia. }
  assert (E3 : (r / 8 * 2048 + g / 4 * 32 + b / 8) mod 32 = b / 8).
  { replace (r / 8 * 2048 + g / 4 * 32 + b / 8)
      with (b / 8 + (r / 8 * 64 + g / 4) * 32) by lia.
    rewrite Z.mod_add by lia. apply Z.mod_small. lia. }
  rewrite E1, E2, E3.
  unfold RGBColor.is_uint8 in *.
  pose proof (Z.div_mod r 8). pose proof (Z.mod_pos_bound r 8).
  pose proof (Z.div_mod g 4). pose proof (Z.mod_pos_bound g 4).
  pose proof (Z.div_mod b 8). pose proof (Z.mod_pos_bound b 8).
  repeat split; lia.
Qed.
End Layout.

(** ** RGBColor: the operations that return a colour *)

Section ColourOperations.
Local Open Scope Z_scope.

Lemma create_exact (r g b : Z) :
  RGBColor.is_uint8 r -> RGBColor.is_uint8 g -> RGBColor.is_uint8 b ->
  RGBColor.create r g b = RGBColor.mk (RGBColor.rgb565 r g b) r g b.
Proof.
  intros Hr Hg Hb. unfold RGBColor.create, RGBColor.SetColor.
  rewrite !uint8_t_id by assumption.
  apply Pack_exact; assumption.
Qed.

Lemma uint8_t_range (z : Z) : RGBColor.is_uint8 (RGBColor.uint8_t z).
Proof. unfold RGBColor.is_uint8, RGBColor.uint8_t. apply Z.mod_pos_bound. lia. Qed.

Lemma SetColor_consistent (this : RGBColor.t) (r g b : Z) :
  RGBColor.consistent (RGBColor.SetColor this r g b).
Proof.
  unfold RGBColor.SetColor.
  rewrite Pack_exact by (cbn; apply uint8_t_range).
  unfold RGBColor.consistent; cbn.
  repeat split; try apply Z.mod_pos_bound; lia.
Qed.

(** X2.  Every colour the class builds, by a constructor or by [SetColor]
    with any arguments, has three [uint8_t] channels and a packed member
    that agrees with them. *)
Theorem Built_consistent (this : RGBColor.t) :
  RGBColor.Built this -> RGBColor.consistent this.
Proof.
  induction 1 as [| r g b | this r g b _ _].
  - unfold RGBColor.consistent, RGBColor.is_uint8; cbn. repeat split; lia.
  - apply SetColor_consistent.
  - apply SetColor_consistent.
Qed.

Lemma scale_spec (m c : Z) :
  RGBColor.is_uint8 m -> RGBColor.is_uint8 c ->
  RGBColor.scale m c = c * m / 255
  /\ 0 <= RGBColor.scale m c <= Z.min c m.
Proof.
  unfold RGBColor.is_uint8. change (2 ^ 8) with 256. intros Hm Hc.
  unfold RGBColor.scale.
  rewrite uint16_t_id by (change (2 ^ 16) with 65536; lia).
  rewrite Z.quot_div_nonneg by nia.
  assert (Hlo : 0 <= c * m / 255) by (apply Z.div_pos; nia).
  assert (Hc' : c * m / 255 <= c).
  { apply Z.div_le_upper_bound; nia. }
  assert (Hm' : c * m / 255 <= m).
  { apply Z.div_le_upper_bound; nia. }
  rewrite uint8_t_id by (unfold RGBColor.is_uint8; change (2 ^ 8) with 256; lia).
  split; [reflexivity | lia].
Qed.

(** X3.  [Scale] multiplies every channel by [maxBrightness / 255],
    rounding down: no channel gets brighter, none exceeds
    [maxBrightness], and the packed member is that of the scaled
    channels. *)
Theorem Scale_never_brightens (this : RGBColor.t) (maxBrightness : Z) :
  RGBColor.is_uint8 (RGBColor.r this) -> RGBColor.is_uint8 (RGBColor.g this) ->
  RGBColor.is_uint8 (RGBColor.b this) -> RGBColor.is_uint8 maxBrightness ->
  let scaled := RGBColor.Scale this maxBrightness in
  RGBColor.r scaled = RGBColor.r this * maxBrightness / 255
  /\ RGBColor.g scaled = RGBColor.g this * maxBrightness / 255
  /\ RGBColor.b scaled = RGBColor.b this * maxBrightness / 255
  /\ 0 <= RGBColor.r scaled <= Z.min (RGBColor.r this) maxBrightness
  /\ 0 <= RGBColor.g scaled <= Z.min (RGBColor.g this) maxBrightness
  /\ 0 <= RGBColor.b scaled <= Z.min (RGBColor.b this) maxBrightness
  /\ RGBColor.consistent scaled.
Proof.
  intros Hr Hg Hb Hm. cbv zeta. unfold RGBColor.Scale.
  rewrite (uint8_t_id Hm).
  destruct (scale_spec Hm Hr) as (Er & Br).
  destruct (scale_spec Hm Hg) as (Eg & Bg).
  destruct (scale_spec Hm Hb) as (Eb & Bb).
  assert (Ur : RGBColor.is_uint8 (RGBColor.scale maxBrightness (RGBColor.r this)))
    by (unfold RGBColor.is_uint8 in *; lia).
  assert (Ug : RGBColor.is_uint8 (RGBColor.scale maxBrightness (RGBColor.g this)))
    by (unfold RGBColor.is_uint8 in *; lia).
  assert (Ub : RGBColor.is_uint8 (RGBColor.scale maxBrightness (RGBColor.b this)))
    by (unfold RGBColor.is_uint8 in *; lia).
  split; [| split; [| split; [| split; [| split; [| split]]]]];
    try (apply SetColor_consistent);
    rewrite (create_exact Ur Ug Ub); cbn [RGBColor.r RGBColor.g RGBColor.b];
    assumption.
Qed.

(** X4.  [Scale(255)] keeps the three channels and [Scale(0)] yields
    black. *)
Theorem Scale_extremes (this : RGBColor.t) :
  RGBColor.consistent this ->
  RGBColor.Scale this 255 = this /\ RGBColor.Scale this 0 = RGBColor.default.
Proof.
  intros (Hr & Hg & Hb & Hc).
  assert (E255 : forall c, RGBColor.is_uint8 c -> RGBColor.scale 255 c = c).
  { intros c Hcc.
    destruct (@scale_spec 255 c) as (E & _);
      [unfold RGBColor.is_uint8; lia | exact Hcc |].
    rewrite E. apply Z.div_mul. lia. }
  assert (E0 : forall c, RGBColor.is_uint8 c -> RGBColor.scale 0 c = 0).
  { intros c Hcc.
    destruct (@scale_spec 0 c) as (E & _);
      [unfold RGBColor.is_uint8; lia | exact Hcc |].
    rewrite E, Z.mul_0_r. reflexivity. }
  unfold RGBColor.Scale. split.
  - change (RGBColor.uint8_t 255) with 255.
    rewrite !E255 by assumption.
    rewrite create_exact by assumption.
    destruct this as [color r g b]; cbn in *. rewrite Hc. reflexivity.
  - change (RGBColor.uint8_t 0) with 0.
    rewrite !E0 by assumption. reflexivity.
Qed.

Section Adding.
Variable Constrain : Z -> Z -> Z -> Z.
Hypothesis Constrain_within :
  forall value minimum maximum,
    minimum <= value <= maximum -> Constrain value minimum maximum = value.

Lemma add_wraps (value c : Z) :
  RGBColor.add Constrain value c = (c + value) mod 256.
Proof.
  unfold RGBColor.add.
  pose proof (uint8_t_range (c + value)) as Hu.
  rewrite Constrain_within
    by (unfold RGBColor.is_uint8 in Hu; change (2 ^ 8) with 256 in Hu;
        change (RGBColor.uint8_t 0) with 0; change (RGBColor.uint8_t 255) with 255; lia).
  rewrite (uint8_t_id Hu). reflexivity.
Qed.

(** X5.  [Add] adds modulo 256: the sum is converted to [uint8_t] before
    [Constrain] sees it, so a channel whose sum exceeds 255 wraps around
    to a smaller value instead of stopping at 255. *)
Theorem Add_wraps_around (this : RGBColor.t) (value : Z) :
  RGBColor.is_uint8 (RGBColor.r this) -> RGBColor.is_uint8 (RGBColor.g this) ->
  RGBColor.is_uint8 (RGBColor.b this) -> RGBColor.is_uint8 value ->
  let sum := RGBColor.Add Constrain this value in
  RGBColor.r sum = (RGBColor.r this + value) mod 256
  /\ RGBColor.g sum = (RGBColor.g this + value) mod 256
  /\ RGBColor.b sum = (RGBColor.b this + value) mod 256
  /\ (255 < RGBColor.r this + value ->
      RGBColor.r sum = RGBColor.r this + value - 256 /\ RGBColor.r sum < RGBColor.r this)
  /\ RGBColor.consistent sum.
Proof.
  intros Hr Hg Hb Hv. cbv zeta. unfold RGBColor.Add.
  rewrite (uint8_t_id Hv), !add_wraps.
  assert (U : forall z, RGBColor.is_uint8 (z mod 256)).
  { intros z. unfold RGBColor.is_uint8. apply Z.mod_pos_bound. lia. }
  assert (Ec := create_exact (U (RGBColor.r this + value)) (U (RGBColor.g this + value))
                             (U (RGBColor.b this + value))).
  split; [| split; [| split; [| split]]].
  - rewrite Ec. reflexivity.
  - rewrite Ec. reflexivity.
  - rewrite Ec. reflexivity.
  - intros Hover. rewrite Ec. cbn [RGBColor.r].
    unfold RGBColor.is_uint8 in *. change (2 ^ 8) with 256 in *.
    assert (E : (RGBColor.r this + value) mod 256 = RGBColor.r this + value - 256).
    { symmetry. apply Z.mod_unique with (q := 1); lia. }
    rewrite E. lia.
  - apply SetColor_consistent.
Qed.
End Adding.
End ColourOperations.

Lemma clamp_within (value minimum maximum : Z) :
  (minimum <= value <= maximum)%Z -> RGBColor.clamp value minimum maximum = value.
Proof.
  intros Hv. unfold RGBColor.clamp.
  destruct (Z.gtb_spec value maximum); [lia |].
  destruct (Z.ltb_spec value minimum); [lia | reflexivity].
Qed.

(** ** RGBColor: interpolation, in exact arithmetic *)

Lemma Qtrunc_floor (q : Q) : 0 <= q -> Qtrunc q = Qfloor q.
Proof.
  destruct q as [n d]. unfold Qle, Qtrunc, Qfloor; cbn.
  intros Hn. apply Z.quot_div_nonneg; lia.
Qed.

Lemma to_uint8_between (q : Q) (lo hi : Z) :
  (0 <= lo)%Z -> (hi <= 255)%Z -> inject_Z lo <= q <= inject_Z hi ->
  exists z : Z, f_to_uint8 q = Some z /\ (lo <= z <= hi)%Z /\ z = Qfloor q.
Proof.
  intros Hlo Hhi [Hl Hh].
  assert (H0 : 0 <= q).
  { apply Qle_trans with (inject_Z lo); [| exact Hl].
    change 0 with (inject_Z 0). rewrite <- Zle_Qle. exact Hlo. }
  assert (Hfl : (lo <= Qfloor q)%Z).
  { rewrite <- (Qfloor_Z lo). apply Qfloor_resp_le. exact Hl. }
  assert (Hfh : (Qfloor q <= hi)%Z).
  { rewrite <- (Qfloor_Z hi). apply Qfloor_resp_le. exact Hh. }
  exists (Qfloor q). cbn [f_to_uint8 Q_FloatConv].
  rewrite (Qtrunc_floor H0).
  destruct (Z.leb_spec 0 (Qfloor q)); [| lia].
  destruct (Z.leb_spec (Qfloor q) 255); [| lia].
  cbn. repeat split; lia.
Qed.

Lemma lerp_value (ratio : Q) (x y : Z) :
  f_of_uint8 x * (1 - ratio) + f_of_uint8 y * ratio
  == inject_Z x + ratio * (inject_Z y - inject_Z x).
Proof. cbn [f_of_uint8 Q_FloatConv]. ring. Qed.

Lemma lerp_endpoints (ratio : Q) (x y : Z) :
  RGBColor.is_uint8 x -> RGBColor.is_uint8 y ->
  (ratio == 0 -> RGBColor.lerp ratio x y = Some x)
  /\ (ratio == 1 -> RGBColor.lerp ratio x y = Some y).
Proof.
  unfold RGBColor.is_uint8. change (2 ^ 8)%Z with 256%Z. intros Hx Hy.
  unfold RGBColor.lerp; cbn [f_mul f_add f_sub f_one Q_Scalar].
  split; intros Er.
  - destruct (@to_uint8_between
                (f_of_uint8 x * (1 - ratio) + f_of_uint8 y * ratio) x x)
      as (z & Ez & _ & Hz); try lia.
    + rewrite lerp_value, Er. split; ring_simplify; apply Qle_refl.
    + rewrite Ez, Hz. f_equal.
      rewrite lerp_value, Er.
      setoid_replace (inject_Z x + 0 * (inject_Z y - inject_Z x)) with (inject_Z x) by ring.
      apply Qfloor_Z.
  - destruct (@to_uint8_between
                (f_of_uint8 x * (1 - ratio) + f_of_uint8 y * ratio) y y)
      as (z & Ez & _ & Hz); try lia.
    + rewrite lerp_value, Er. split; ring_simplify; apply Qle_refl.
    + rewrite Ez, Hz. f_equal.
      rewrite lerp_value, Er.
      setoid_replace (inject_Z x + 1 * (inject_Z y - inject_Z x)) with (inject_Z y) by ring.
      apply Qfloor_Z.
Qed.

(** X7.  In exact arithmetic, [InterpolateColors] with ratio 0 yields the
    first colour and with ratio 1 the second. *)
Theorem InterpolateColors_endpoints (a b : RGBColor.t) :
  RGBColor.consistent a -> RGBColor.consistent b ->
  RGBColor.InterpolateColors a b 0 = Some a
  /\ RGBColor.InterpolateColors a b 1 = Some b.
Proof.
  intros (Har & Hag & Hab & Hac) (Hbr & Hbg & Hbb & Hbc).
  unfold RGBColor.InterpolateColors.
  split.
  - rewrite (proj1 (lerp_endpoints 0 Har Hbr)), (proj1 (lerp_endpoints 0 Hag Hbg)),
      (proj1 (lerp_endpoints 0 Hab Hbb)) by reflexivity.
    rewrite create_exact by assumption.
    destruct a as [ca ra ga ba]; cbn in *. rewrite Hac. reflexivity.
  - rewrite (proj2 (lerp_endpoints 1 Har Hbr)), (proj2 (lerp_endpoints 1 Hag Hbg)),
      (proj2 (lerp_endpoints 1 Hab Hbb)) by reflexivity.
    rewrite create_exact by assumption.
    destruct b as [cb rb gb bb]; cbn in *. rewrite Hbc. reflexivity.
Qed.

(** ** RGBColor: the endpoints of the interpolation in single precision *)

Lemma uint8_values_spec (z : Z) :
  RGBColor.is_uint8 z -> List.In z Binary32.uint8_values.
Proof.
  unfold RGBColor.is_uint8, Binary32.uint8_values. intros Hz.
  apply List.in_map_iff. exists (Z.to_nat z). split.
  - apply Z2Nat.id. lia.
  - apply List.in_seq. change (2 ^ 8)%Z with 256%Z in Hz. lia.
Qed.

Lemma lerp_endpoints_all :
  List.forallb (fun x => List.forallb (Binary32.lerp_endpoints_ok x) Binary32.uint8_values)
               Binary32.uint8_values = true.
Proof. vm_compute. reflexivity. Qed.

Lemma lerp_endpoints_binary32 (x y : Z) :
  RGBColor.is_uint8 x -> RGBColor.is_uint8 y ->
  RGBColor.lerp (S754_zero false) x y = Some x
  /\ RGBColor.lerp (Binary32.of_Z 1) x y = Some y.
Proof.
  intros Hx Hy.
  pose proof lerp_endpoints_all as Hall.
  rewrite List.forallb_forall in Hall.
  specialize (Hall x (uint8_values_spec Hx)).
  rewrite List.forallb_forall in Hall.
  specialize (Hall y (uint8_values_spec Hy)).
  unfold Binary32.lerp_endpoints_ok in Hall.
  destruct (RGBColor.lerp (S754_zero false) x y) as [x' |]; [| discriminate].
  destruct (RGBColor.lerp (Binary32.of_Z 1) x y) as [y' |]; [| discriminate].
  apply andb_true_iff in Hall. destruct Hall as [Ex Ey].
  apply Z.eqb_eq in Ex. apply Z.eqb_eq in Ey. subst. split; reflexivity.
Qed.

(** X8.  In IEEE single precision too, [InterpolateColors] with ratio
    [0.0f] yields the first colour and with ratio [1.0f] the second, for
    all channel values. *)
Theorem InterpolateColors_endpoints_binary32 (a b : RGBColor.t) :
  RGBColor.consistent a -> RGBColor.consistent b ->
  RGBColor.InterpolateColors a b (S754_zero false) = Some a
  /\ RGBColor.InterpolateColors a b (Binary32.of_Z 1) = Some b.
Proof.
  intros (Har & Hag & Hab & Hac) (Hbr & Hbg & Hbb & Hbc).
  unfold RGBColor.InterpolateColors.
  destruct (lerp_endpoints_binary32 Har Hbr) as [-> ->].
  destruct (lerp_endpoints_binary32 Hag Hbg) as [-> ->].
  destruct (lerp_endpoints_binary32 Hab Hbb) as [-> ->].
  rewrite !create_exact by assumption.
  destruct a as [ca ra ga ba], b as [cb rb gb bb]; cbn in *.
  rewrite Hac, Hbc. split; reflexivity.
Qed.

(** ** What the reported coordinates mean *)

Section Meaning.
Variable Material : Type.
Variable EPSILON : Q.
Hypothesis EPSILON_pos : 0 < EPSILON.
Local Abbreviation T := (@RasterTriangle2D.t Q Material).
Local Abbreviation Calc := (RasterTriangle2D.CalculateBoundsAndDenominator EPSILON).
Local Abbreviation GBC := (RasterTriangle2D.GetBarycentricCoords EPSILON).

(** Past the guard the cross product is not zero and its reciprocal is
    stored. *)
Lemma past_guard (this : T) :
  RasterTriangle2D.degenerate_guard EPSILON (Calc this) = false ->
  Geometry.area_test EPSILON this = true
  /\ ~ Geometry.cross (RasterTriangle2D.p1 this) (RasterTriangle2D.p2 this)
         (RasterTriangle2D.p3 this) == 0.
Proof.
  intros Eg.
  assert (Ha : Geometry.area_test EPSILON this = true).
  { destruct (Geometry.area_test EPSILON this) eqn:Ha; [reflexivity |].
    assert (Ht : RasterTriangle2D.degenerate_guard EPSILON (Calc this) = true)
      by (apply (guard_after_Calc EPSILON_pos); left; exact Ha).
    rewrite Ht in Eg. discriminate. }
  split; [exact Ha |].
  apply area_test_spec in Ha. intros Hd. rewrite Hd in Ha. cbn in Ha. lra.
Qed.

(** The coordinates of the specification reproduce the point. *)
Lemma barycentric_combination (this : T) (x y : Q) :
  RasterTriangle2D.degenerate_guard EPSILON (Calc this) = false ->
  let '(u, v, w) := Geometry.barycentric (Calc this) x y in
  u + v + w == 1
  /\ u * Vector2D.X (RasterTriangle2D.p1 this) + v * Vector2D.X (RasterTriangle2D.p2 this)
      + w * Vector2D.X (RasterTriangle2D.p3 this) == x
  /\ u * Vector2D.Y (RasterTriangle2D.p1 this) + v * Vector2D.Y (RasterTriangle2D.p2 this)
      + w * Vector2D.Y (RasterTriangle2D.p3 this) == y.
Proof.
  intros Eg. destruct (past_guard _ Eg) as [Ha Hd].
  unfold Geometry.barycentric.
  rewrite Calc_denominator, Ha.
  destruct (Calc_edges EPSILON this) as [-> ->].
  destruct (Calc_vertices EPSILON this) as (-> & _ & _).
  unfold Vector2D.sub, Geometry.cross in *; cbn [Vector2D.X Vector2D.Y f_sub Q_Scalar] in *.
  destruct (RasterTriangle2D.p1 this) as [ax ay], (RasterTriangle2D.p2 this) as [bx by_],
    (RasterTriangle2D.p3 this) as [cx cy]; cbn [Vector2D.X Vector2D.Y] in *.
  split; [ring | split; field; exact Hd].
Qed.

(** X9.  Past the early return, the coordinates [GetBarycentricCoords]
    writes reproduce the query point: [u*p1 + v*p2 + w*p3 = (x, y)]. *)
Theorem barycentric_reconstructs (this : T) (x y : Q) (uvw : Q * Q * Q) :
  RasterTriangle2D.degenerate_guard EPSILON (Calc this) = false ->
  let '(_, (u, v, w)) := GBC (Calc this) x y uvw in
  u * Vector2D.X (RasterTriangle2D.p1 this) + v * Vector2D.X (RasterTriangle2D.p2 this)
    + w * Vector2D.X (RasterTriangle2D.p3 this) == x
  /\ u * Vector2D.Y (RasterTriangle2D.p1 this) + v * Vector2D.Y (RasterTriangle2D.p2 this)
    + w * Vector2D.Y (RasterTriangle2D.p3 this) == y.
Proof.
  intros Eg.
  rewrite (@GetBarycentricCoords_barycentric Material EPSILON (Calc this) x y uvw Eg).
  pose proof (barycentric_combination this x y Eg) as Hc.
  destruct (Geometry.barycentric (Calc this) x y) as [[u v] w].
  destruct Hc as (_ & Hx & Hy). split; assumption.
Qed.

End Meaning.

(** ** The stored reciprocal *)

#[global] Instance Qltb_comp : Proper (Qeq ==> Qeq ==> eq) Qltb.
Proof. intros a a' Ha b b' Hb. unfold Qltb. rewrite Ha, Hb. reflexivity. Qed.

Section Reciprocal.
Variable Material : Type.
Variable EPSILON : Q.
Hypothesis EPSILON_pos : 0 < EPSILON.
Local Abbreviation T := (@RasterTriangle2D.t Q Material).
Local Abbreviation Calc := (RasterTriangle2D.CalculateBoundsAndDenominator EPSILON).
Local Abbreviation GBC := (RasterTriangle2D.GetBarycentricCoords EPSILON).

(** X15.  In every object the bounds are ordered and the stored
    reciprocal is below [1 / EPSILON] in absolute value, whatever vertices
    were assigned and whether or not the object was recalculated since. *)
Theorem Reachable_invariant {Quaternion Transform : Type}
        `{CameraMath Q Quaternion Transform} (this : T) :
  Geometry.Reachable EPSILON this ->
  Geometry.ordered (RasterTriangle2D.bounds this)
  /\ Qabs (RasterTriangle2D.denominator this) < 1 / EPSILON.
Proof.
  assert (Hinv : 0 < 1 / EPSILON).
  { apply Qlt_shift_div_l; [exact EPSILON_pos | lra]. }
  assert (Hcalc : forall this0 : T,
             Qabs (RasterTriangle2D.denominator (Calc this0)) < 1 / EPSILON).
  { intros this0. rewrite Calc_denominator.
    destruct (Geometry.area_test EPSILON this0) eqn:Ha; [| cbn; exact Hinv].
    apply area_test_spec in Ha.
    set (d := Geometry.cross _ _ _) in *.
    assert (Hd : 0 < Qabs d) by lra.
    assert (Ei : Qabs (1 / d) == 1 / Qabs d).
    { unfold Qdiv. rewrite Qabs_Qmult, Qabs_Qinv. reflexivity. }
    rewrite Ei. apply (Qdiv_lt_iff 1 (1 / EPSILON) Hd).
    setoid_replace (1 / EPSILON * Qabs d) with (Qabs d / EPSILON) by (field; lra).
    apply Qlt_shift_div_l; [exact EPSILON_pos | lra]. }
  intros Hr.
  split; [exact (Reachable_ordered Hr) |].
  induction Hr as [| cam look src mat this Hc | this a b c _ IH | this _ _].
  - cbn. exact Hinv.
  - apply create_is_Calc in Hc. destruct Hc as [this0 ->]. apply Hcalc.
  - exact IH.
  - apply Hcalc.
Qed.
End Reciprocal.

(** ** Ellipse2D: the containment test, in exact arithmetic *)

Section Ellipse.
Context `{Trig Q}.
Variable MPID180 : Q.
Local Abbreviation In_shape := (Ellipse2D.IsInShape MPID180).

(** X17.  The test is symmetric about the centre: a point and the point
    opposite to it get the same verdict. *)
Theorem opposite_same_verdict (this : Ellipse2D.t Q) (point : Vector2D.t Q) :
  In_shape this (Ellipse2D.opposite this point) = In_shape this point.
Proof.
  unfold Ellipse2D.IsInShape, Ellipse2D.opposite.
  cbn [f_ltb f_add f_sub f_mul f_div f_one Q_Scalar Vector2D.X Vector2D.Y].
  apply Qltb_comp; [| reflexivity].
  unfold Qdiv. ring.
Qed.

End Ellipse.

(** ** Degenerate triangles, as computed *)

Section FailedTest.
Context {F : Type} `{Scalar F}.
Variable Material : Type.
Variable EPSILON : F.
Hypothesis zero_below : f_ltb (Mathematics.FAbs f_zero) EPSILON = true.

(** Whatever the arithmetic is, a triangle that fails the test of line 53
    holds the sentinel and takes the early return at every point. *)
Lemma failed_test_never_inside (this : @RasterTriangle2D.t F Material) :
  Construction.passes EPSILON this = false ->
  RasterTriangle2D.denominator
    (RasterTriangle2D.CalculateBoundsAndDenominator EPSILON this) = f_zero
  /\ forall x y uvw,
      RasterTriangle2D.GetBarycentricCoords EPSILON
        (RasterTriangle2D.CalculateBoundsAndDenominator EPSILON this) x y uvw
      = (false, uvw).
Proof.
  intros Hfail.
  assert (Hden : RasterTriangle2D.denominator
                   (RasterTriangle2D.CalculateBoundsAndDenominator EPSILON this) = f_zero).
  { unfold Construction.passes, Construction.cross in Hfail.
    unfold RasterTriangle2D.CalculateBoundsAndDenominator.
    cbn [RasterTriangle2D.denominator]. rewrite Hfail. reflexivity. }
  split; [exact Hden |].
  intros x y uvw. unfold RasterTriangle2D.GetBarycentricCoords,
    RasterTriangle2D.degenerate_guard.
  rewrite Hden, zero_below. reflexivity.
Qed.
End FailedTest.

Lemma binary32_zero_below (EPSILON : spec_float) :
  SFltb (S754_zero false) EPSILON = true ->
  f_ltb (Mathematics.FAbs (f_zero (F := spec_float))) EPSILON = true.
Proof. intros Hpos. exact Hpos. Qed.

Lemma Q_zero_below (EPSILON : Q) :
  0 < EPSILON -> f_ltb (Mathematics.FAbs (f_zero (F := Q))) EPSILON = true.
Proof. intros Hpos. apply Qltb_lt. exact Hpos. Qed.

(** C3, as amended.  In single precision, every triangle whose cross
    product, as [CalculateBoundsAndDenominator] computes it, does not
    exceed a positive [EPSILON] in absolute value holds the sentinel [0]
    in [denominator] and [GetBarycentricCoords] returns [false] on it at
    every query point; the collinear points [(0,0)], [(1,1)], [(2,2)] are
    such a triangle; and in exact arithmetic so is every triangle whose
    three vertices are collinear. *)
Theorem C3_degenerate_never_inside :
  (forall (Material : Type) (EPSILON : spec_float)
          (this : @RasterTriangle2D.t spec_float Material),
      SFltb (S754_zero false) EPSILON = true ->
      Construction.passes EPSILON this = false ->
      RasterTriangle2D.denominator
        (RasterTriangle2D.CalculateBoundsAndDenominator EPSILON this) = S754_zero false
      /\ forall x y uvw,
          RasterTriangle2D.GetBarycentricCoords EPSILON
            (RasterTriangle2D.CalculateBoundsAndDenominator EPSILON this) x y uvw
          = (false, uvw))
  /\ Construction.passes Binary32.EPSILON Float32.diagonal = false
  /\ (forall (Material : Type) (EPSILON : Q) (this : @RasterTriangle2D.t Q Material),
      0 < EPSILON ->
      Geometry.collinear (RasterTriangle2D.p1 this) (RasterTriangle2D.p2 this)
                         (RasterTriangle2D.p3 this) ->
      Construction.passes EPSILON this = false
      /\ RasterTriangle2D.denominator
           (RasterTriangle2D.CalculateBoundsAndDenominator EPSILON this) = 0
      /\ forall x y uvw,
          RasterTriangle2D.GetBarycentricCoords EPSILON
            (RasterTriangle2D.CalculateBoundsAndDenominator EPSILON this) x y uvw
          = (false, uvw)).
Proof.
  split; [| split].
  - intros Material EPSILON this Hpos Hfail.
    exact (@failed_test_never_inside spec_float _ Material EPSILON
             (binary32_zero_below EPSILON Hpos) this Hfail).
  - vm_compute. reflexivity.
  - intros Material EPSILON this Hpos Hcol.
    assert (Hfail : Construction.passes EPSILON this = false).
    { apply collinear_cross in Hcol.
      change (Construction.passes EPSILON this) with (Geometry.area_test EPSILON this).
      apply not_true_iff_false. rewrite area_test_spec, Hcol. cbn. lra. }
    split; [exact Hfail |].
    exact (@failed_test_never_inside Q _ Material EPSILON (Q_zero_below Hpos) this Hfail).
Qed.

Lemma C3_witness :
  SFltb (S754_zero false) Binary32.EPSILON = true
  /\ Construction.passes Binary32.EPSILON Float32.diagonal = false
  /\ forall x y uvw,
      RasterTriangle2D.GetBarycentricCoords Binary32.EPSILON
        (RasterTriangle2D.CalculateBoundsAndDenominator Binary32.EPSILON Float32.diagonal)
        x y uvw = (false, uvw).
Proof.
  assert (Hpos : SFltb (S754_zero false) Binary32.EPSILON = true) by (vm_compute; reflexivity).
  assert (Hfail : Construction.passes Binary32.EPSILON Float32.diagonal = false)
    by (vm_compute; reflexivity).
  split; [exact Hpos | split; [exact Hfail |]].
  exact (proj2 (proj1 C3_degenerate_never_inside unit Binary32.EPSILON Float32.diagonal
                  Hpos Hfail)).
Defined.

Lemma sliver_collinear :
  Geometry.collinear (Float32.value Float32.sliver_p1) (Float32.value Float32.sliver_p2)
                     (Float32.value Float32.sliver_p3).
Proof.
  exists 2, (- (Vector2D.X (Float32.value Float32.sliver_p3)
                - Vector2D.X (Float32.value Float32.sliver_p1))),
         (2 * Vector2D.X (Float32.value Float32.sliver_p1)).
  unfold Geometry.on_line.
  split; [intros [E _]; discriminate E |].
  repeat split; vm_compute; reflexivity.
Qed.

(** C3, as stated, fails in single precision on three vertices that lie
    on one line: the rounded edge vectors give the cross product [-2^-9],
    beyond the threshold, the reciprocal [-512] is stored and the first
    vertex is reported inside. *)
Lemma C3_collinear_floats_reported_inside :
  Geometry.collinear (Float32.value Float32.sliver_p1) (Float32.value Float32.sliver_p2)
                     (Float32.value Float32.sliver_p3)
  /\ Construction.cross Float32.diagonal = S754_zero false
  /\ Construction.cross
       (RasterTriangle2D.set_vertices (RasterTriangle2D.default unit)
          Float32.sliver_p1 Float32.sliver_p2 Float32.sliver_p3)
     = Float32.make (-1) (-9)
  /\ RasterTriangle2D.denominator Float32.sliver = Float32.make (-512) 0
  /\ fst (RasterTriangle2D.GetBarycentricCoords Binary32.EPSILON Float32.sliver
            (Vector2D.X Float32.sliver_p1) (Vector2D.Y Float32.sliver_p1)
            (S754_zero false, S754_zero false, S754_zero false)) = true.
Proof.
  split; [exact sliver_collinear |].
  repeat split; vm_compute; reflexivity.
Qed.

(** ** NaN vertices and the centre of an ellipse, in single precision *)

Lemma SFsub_nan_l (y : spec_float) : SFsub Binary32.prec Binary32.emax S754_nan y = S754_nan.
Proof. reflexivity. Qed.

Lemma SFsub_nan_r (x : spec_float) : SFsub Binary32.prec Binary32.emax x S754_nan = S754_nan.
Proof. destruct x; reflexivity. Qed.

Lemma SFmul_nan_l (y : spec_float) : SFmul Binary32.prec Binary32.emax S754_nan y = S754_nan.
Proof. reflexivity. Qed.

Lemma SFmul_nan_r (x : spec_float) : SFmul Binary32.prec Binary32.emax x S754_nan = S754_nan.
Proof. destruct x; reflexivity. Qed.

Lemma nan_vertex_cross (Material : Type) (this : @RasterTriangle2D.t spec_float Material) :
  Float32.has_nan (RasterTriangle2D.p1 this) \/ Float32.has_nan (RasterTriangle2D.p2 this)
  \/ Float32.has_nan (RasterTriangle2D.p3 this) ->
  Construction.cross this = S754_nan.
Proof.
  unfold Float32.has_nan, Construction.cross, Vector2D.sub.
  cbn [Vector2D.X Vector2D.Y f_sub f_mul Binary32.binary32_Scalar].
  intros [[E | E] | [[E | E] | [E | E]]]; rewrite E;
    rewrite ?SFsub_nan_l, ?SFsub_nan_r, ?SFmul_nan_l, ?SFmul_nan_r,
            ?SFsub_nan_l, ?SFsub_nan_r; reflexivity.
Qed.

(** X21.  In single precision, a triangle with a NaN coordinate in one of
    its vertices holds the sentinel after
    [CalculateBoundsAndDenominator], and [GetBarycentricCoords] returns
    [false] on it at every query point and writes no coordinate. *)
Theorem nan_vertex_never_inside (Material : Type) (EPSILON : spec_float)
        (this : @RasterTriangle2D.t spec_float Material) :
  SFltb (S754_zero false) EPSILON = true ->
  Float32.has_nan (RasterTriangle2D.p1 this) \/ Float32.has_nan (RasterTriangle2D.p2 this)
  \/ Float32.has_nan (RasterTriangle2D.p3 this) ->
  RasterTriangle2D.denominator
    (RasterTriangle2D.CalculateBoundsAndDenominator EPSILON this) = S754_zero false
  /\ forall x y uvw,
      RasterTriangle2D.GetBarycentricCoords EPSILON
        (RasterTriangle2D.CalculateBoundsAndDenominator EPSILON this) x y uvw
      = (false, uvw).
Proof.
  intros Hpos Hnan.
  apply (@failed_test_never_inside spec_float _ Material EPSILON
           (binary32_zero_below EPSILON Hpos) this).
  unfold Construction.passes. rewrite (nan_vertex_cross this Hnan).
  destruct EPSILON; reflexivity.
Qed.

Lemma SFsub_diag (c : spec_float) :
  Float32.is_finite c = true ->
  SFsub Binary32.prec Binary32.emax c c = S754_zero false.
Proof.
  destruct c as [s | s | | s m e]; try discriminate; intros _.
  - destruct s; reflexivity.
  - unfold SFsub. rewrite Z.sub_diag. reflexivity.
Qed.

Lemma zero_times_finite (s : bool) (c : spec_float) :
  Float32.is_finite c = true ->
  exists s', SFmul Binary32.prec Binary32.emax (S754_zero s) c = S754_zero s'.
Proof.
  destruct c as [s0 | s0 | | s0 m e]; try discriminate; intros _; eexists; reflexivity.
Qed.

Lemma zero_minus_zero (s t : bool) :
  exists s', SFsub Binary32.prec Binary32.emax (S754_zero s) (S754_zero t) = S754_zero s'.
Proof. destruct s, t; eexists; reflexivity. Qed.

Lemma zero_plus_zero (s t : bool) :
  exists s', SFadd Binary32.prec Binary32.emax (S754_zero s) (S754_zero t) = S754_zero s'.
Proof. destruct s, t; eexists; reflexivity. Qed.

Lemma zero_over_finite (s : bool) (d : spec_float) :
  Float32.is_finite_nonzero d = true ->
  exists s', SFdiv Binary32.prec Binary32.emax (S754_zero s) d = S754_zero s'.
Proof.
  destruct d as [s0 | s0 | | s0 m e]; try discriminate; intros _; eexists; reflexivity.
Qed.

(** X16.  In single precision, the centre of an ellipse is in the shape
    when its coordinates and the computed sine and cosine are finite and
    the two products [size.X * size.X] and [size.Y * size.Y], as computed,
    are finite and not zero. *)
Theorem center_in_shape_binary32 `{Trig spec_float} (MPID180 : spec_float)
        (this : Ellipse2D.t spec_float) :
  Float32.is_finite (Vector2D.X (Ellipse2D.center this)) = true ->
  Float32.is_finite (Vector2D.Y (Ellipse2D.center this)) = true ->
  Float32.is_finite (sinf (f_mul (Ellipse2D.rotation this) MPID180)) = true ->
  Float32.is_finite (cosf (f_mul (Ellipse2D.rotation this) MPID180)) = true ->
  Float32.is_finite_nonzero
    (f_mul (Vector2D.X (Ellipse2D.size this)) (Vector2D.X (Ellipse2D.size this))) = true ->
  Float32.is_finite_nonzero
    (f_mul (Vector2D.Y (Ellipse2D.size this)) (Vector2D.Y (Ellipse2D.size this))) = true ->
  Ellipse2D.IsInShape MPID180 this (Ellipse2D.center this) = true.
Proof.
  intros Hcx Hcy Hs Hc Hsx Hsy.
  unfold Ellipse2D.IsInShape.
  cbn [f_ltb f_add f_sub f_mul f_div f_one Binary32.binary32_Scalar] in *.
  rewrite (SFsub_diag _ Hcx), (SFsub_diag _ Hcy).
  destruct (zero_times_finite false _ Hc) as [a ->].
  destruct (zero_times_finite false _ Hs) as [b ->].
  destruct (zero_minus_zero a b) as [xP ->].
  destruct (zero_plus_zero a b) as [yP ->].
  change (SFmul Binary32.prec Binary32.emax (S754_zero xP) (S754_zero xP))
    with (S754_zero (xorb xP xP)).
  change (SFmul Binary32.prec Binary32.emax (S754_zero yP) (S754_zero yP))
    with (S754_zero (xorb yP yP)).
  destruct (zero_over_finite (xorb xP xP) _ Hsx) as [qx ->].
  destruct (zero_over_finite (xorb yP yP) _ Hsy) as [qy ->].
  destruct (zero_plus_zero qx qy) as [q ->].
  reflexivity.
Qed.

(** X22.  In single precision, [GetBarycentricCoords] returns [false] at
    every query point with a NaN coordinate, on every triangle. *)
Theorem nan_point_never_inside (Material : Type) (EPSILON : spec_float)
        (this : @RasterTriangle2D.t spec_float Material) (x y : spec_float)
        (uvw : spec_float * spec_float * spec_float) :
  x = S754_nan \/ y = S754_nan ->
  fst (RasterTriangle2D.GetBarycentricCoords EPSILON this x y uvw) = false.
Proof.
  intros Hnan. unfold RasterTriangle2D.GetBarycentricCoords.
  destruct (RasterTriangle2D.degenerate_guard EPSILON this); [reflexivity |].
  cbn [fst]. unfold Vector2D.sub.
  cbn [Vector2D.X Vector2D.Y f_sub f_mul f_leb f_zero f_one Binary32.binary32_Scalar].
  assert (Hv : SFmul Binary32.prec Binary32.emax
                 (SFsub Binary32.prec Binary32.emax
                    (SFmul Binary32.prec Binary32.emax
                       (SFsub Binary32.prec Binary32.emax x
                          (Vector2D.X (RasterTriangle2D.p1 this)))
                       (Vector2D.Y (RasterTriangle2D.v1 this)))
                    (SFmul Binary32.prec Binary32.emax
                       (Vector2D.X (RasterTriangle2D.v1 this))
                       (SFsub Binary32.prec Binary32.emax y
                          (Vector2D.Y (RasterTriangle2D.p1 this)))))
                 (RasterTriangle2D.denominator this) = S754_nan).
  { destruct Hnan as [-> | ->];
      rewrite ?SFsub_nan_l, ?SFmul_nan_l, ?SFmul_nan_r, ?SFsub_nan_l, ?SFsub_nan_r,
              ?SFmul_nan_l; reflexivity. }
  rewrite Hv. reflexivity.
Qed.

(** ** The properties above on concrete values *)

Lemma orange_consistent : RGBColor.consistent Samples.orange.
Proof. apply SetColor_consistent. Qed.

Lemma teal_consistent : RGBColor.consistent Samples.teal.
Proof. apply SetColor_consistent. Qed.

Lemma rgb565_layout_witness :
  RGBColor.is_uint8 255 /\ RGBColor.is_uint8 128 /\ RGBColor.is_uint8 7
  /\ Z.shiftr (RGBColor.color (RGBColor.create 255 128 7)) 11 = Z.shiftr 255 3.
Proof.
  assert (Hr : RGBColor.is_uint8 255) by (unfold RGBColor.is_uint8; lia).
  assert (Hg : RGBColor.is_uint8 128) by (unfold RGBColor.is_uint8; lia).
  assert (Hb : RGBColor.is_uint8 7) by (unfold RGBColor.is_uint8; lia).
  repeat (split; [assumption |]).
  exact (proj1 (rgb565_layout Hr Hg Hb)).
Defined.

Lemma Built_consistent_witness :
  RGBColor.Built (RGBColor.SetColor RGBColor.default 300 (-1) 7)
  /\ RGBColor.consistent (RGBColor.SetColor RGBColor.default 300 (-1) 7).
Proof.
  assert (Hb : RGBColor.Built (RGBColor.SetColor RGBColor.default 300 (-1) 7))
    by (constructor; constructor).
  split; [exact Hb | exact (Built_consistent Hb)].
Defined.

Lemma Scale_never_brightens_witness :
  RGBColor.is_uint8 128
  /\ RGBColor.r (RGBColor.Scale Samples.orange 128) = (255 * 128 / 255)%Z.
Proof.
  assert (Hm : RGBColor.is_uint8 128) by (unfold RGBColor.is_uint8; lia).
  destruct orange_consistent as (Hr & Hg & Hb & _).
  split; [exact Hm |].
  exact (proj1 (Scale_never_brightens Samples.orange Hr Hg Hb Hm)).
Defined.

Lemma Scale_extremes_witness :
  RGBColor.consistent Samples.orange
  /\ RGBColor.Scale Samples.orange 255 = Samples.orange
  /\ RGBColor.Scale Samples.orange 0 = RGBColor.default.
Proof.
  split; [exact orange_consistent |].
  exact (Scale_extremes orange_consistent).
Defined.

Lemma Add_wraps_around_witness :
  RGBColor.is_uint8 8
  /\ RGBColor.r (RGBColor.Add RGBColor.clamp Samples.orange 8) = ((255 + 8) mod 256)%Z.
Proof.
  assert (Hv : RGBColor.is_uint8 8) by (unfold RGBColor.is_uint8; lia).
  destruct orange_consistent as (Hr & Hg & Hb & _).
  split; [exact Hv |].
  exact (proj1 (Add_wraps_around RGBColor.clamp clamp_within Samples.orange Hr Hg Hb Hv)).
Defined.

Lemma InterpolateColors_endpoints_witness :
  RGBColor.InterpolateColors Samples.orange Samples.teal 0 = Some Samples.orange
  /\ RGBColor.InterpolateColors Samples.orange Samples.teal 1 = Some Samples.teal.
Proof. exact (InterpolateColors_endpoints orange_consistent teal_consistent). Defined.

Lemma InterpolateColors_endpoints_binary32_witness :
  RGBColor.InterpolateColors Samples.orange Samples.teal (S754_zero false)
    = Some Samples.orange
  /\ RGBColor.InterpolateColors Samples.orange Samples.teal (Binary32.of_Z 1)
    = Some Samples.teal.
Proof. exact (InterpolateColors_endpoints_binary32 orange_consistent teal_consistent). Defined.

Lemma small_past_guard :
  RasterTriangle2D.degenerate_guard Examples.EPSILON
    (RasterTriangle2D.CalculateBoundsAndDenominator Examples.EPSILON Samples.small_vertices)
  = false.
Proof. reflexivity. Qed.

Lemma EPSILON_positive : 0 < Examples.EPSILON.
Proof. reflexivity. Qed.

Lemma barycentric_reconstructs_witness :
  0 < Examples.EPSILON
  /\ let '(_, (u, v, w)) :=
       RasterTriangle2D.GetBarycentricCoords Examples.EPSILON
         (RasterTriangle2D.CalculateBoundsAndDenominator Examples.EPSILON
            Samples.small_vertices) 1 1 (0, 0, 0) in
     u * 0 + v * 4 + w * 0 == 1 /\ u * 0 + v * 0 + w * 4 == 1.
Proof.
  split; [exact EPSILON_positive |].
  exact (@barycentric_reconstructs unit Examples.EPSILON EPSILON_positive
           Samples.small_vertices 1 1 (0, 0, 0) small_past_guard).
Defined.

Lemma Reachable_invariant_witness :
  0 < Examples.EPSILON
  /\ Geometry.Reachable (Material := unit) (H := Camera.Q_CameraMath) Examples.EPSILON
       Examples.large
  /\ Qabs (RasterTriangle2D.denominator Examples.large) < 1 / Examples.EPSILON.
Proof.
  assert (Hr : Geometry.Reachable (Material := unit) (H := Camera.Q_CameraMath)
                 Examples.EPSILON Examples.large)
    by (repeat constructor).
  split; [exact EPSILON_positive | split; [exact Hr |]].
  exact (proj2 (Reachable_invariant EPSILON_positive Hr)).
Defined.


Lemma nan_vertex_never_inside_witness :
  SFltb (S754_zero false) Binary32.EPSILON = true
  /\ Float32.has_nan (RasterTriangle2D.p1 Float32.nan_triangle)
  /\ forall x y uvw,
      RasterTriangle2D.GetBarycentricCoords Binary32.EPSILON
        (RasterTriangle2D.CalculateBoundsAndDenominator Binary32.EPSILON
           Float32.nan_triangle) x y uvw = (false, uvw).
Proof.
  assert (Hpos : SFltb (S754_zero false) Binary32.EPSILON = true) by (vm_compute; reflexivity).
  assert (Hnan : Float32.has_nan (RasterTriangle2D.p1 Float32.nan_triangle))
    by (left; reflexivity).
  split; [exact Hpos | split; [exact Hnan |]].
  exact (proj2 (@nan_vertex_never_inside unit Binary32.EPSILON Float32.nan_triangle
                  Hpos (or_introl Hnan))).
Defined.

Lemma center_in_shape_binary32_witness :
  Float32.is_finite_nonzero
    (f_mul (Vector2D.X (Ellipse2D.size Float32.ellipse))
           (Vector2D.X (Ellipse2D.size Float32.ellipse))) = true
  /\ Ellipse2D.IsInShape (H0 := Float32.at_zero) Float32.MPID180 Float32.ellipse
       (Ellipse2D.center Float32.ellipse) = true.
Proof.
  assert (Hsx : Float32.is_finite_nonzero
                  (f_mul (Vector2D.X (Ellipse2D.size Float32.ellipse))
                         (Vector2D.X (Ellipse2D.size Float32.ellipse))) = true)
    by (vm_compute; reflexivity).
  split; [exact Hsx |].
  exact (@center_in_shape_binary32 Float32.at_zero Float32.MPID180 Float32.ellipse
           eq_refl eq_refl eq_refl eq_refl Hsx eq_refl).
Defined.

Lemma nan_point_never_inside_witness :
  fst (RasterTriangle2D.GetBarycentricCoords Binary32.EPSILON Binary32.small
         S754_nan (Binary32.of_Z 1) (S754_zero false, S754_zero false, S754_zero false))
  = false.
Proof.
  exact (@nan_point_never_inside unit Binary32.EPSILON Binary32.small S754_nan
           (Binary32.of_Z 1) (S754_zero false, S754_zero false, S754_zero false)
           (or_introl eq_refl)).
Defined.
